(** * The DGMR Sampler: shape-level model of [dgmr/generators.py]

    Two variants of the module are modelled side by side:
    - [Std]: [dgmr_deterministic/dgmr/generators.py]
    - [Dct]: [experiments/dgmr-dct/dgmr/generators.py]

    A tensor is its shape together with an abstract numerical content.
    The shape discipline of every operation is concrete and executable;
    the numerical content is computed by the operations of a [Numerics]
    instance, over which every definition and theorem is generic. *)

From Stdlib Require Import ZArith String List Bool Lia.
Import ListNotations.
Open Scope string_scope.
Open Scope Z_scope.

(* ------------------------------------------------------------------ *)
(** ** Exceptions and the result monad *)

Inductive exn : Type :=
| IndexError
| KeyError (key : string)
| TypeError
| ShapeError (op : string).

Inductive result (A : Type) : Type :=
| Ok (a : A)
| Raise (e : exn).
Arguments Ok {A} a.
Arguments Raise {A} e.

Definition bind {A B : Type} (m : result A) (k : A -> result B) : result B :=
  match m with
  | Ok a => k a
  | Raise e => Raise e
  end.

Notation "x <- m ;; k" := (bind m (fun x => k))
  (at level 61, m at next level, right associativity).

Definition is_ok {A : Type} (m : result A) : bool :=
  match m with Ok _ => true | Raise _ => false end.

(** A list comprehension [[f(h) for h in hs]] whose body may raise. *)
Fixpoint mapM {A B : Type} (f : A -> result B) (xs : list A) : result (list B) :=
  match xs with
  | [] => Ok []
  | x :: xs' =>
      y <- f x ;;
      ys <- mapM f xs' ;;
      Ok (y :: ys)
  end.

(** [range(n)] for a Python int [n]. *)
Definition range (n : Z) : list nat := seq 0 (Z.to_nat n).

(** [[x] * n] for a Python int [n] (empty when [n <= 0]). *)
Definition list_mul {A : Type} (x : A) (n : Z) : list A := repeat x (Z.to_nat n).

(** [xs[i]] on a Python list, for a non-negative index. *)
Definition list_getitem {A : Type} (xs : list A) (i : nat) : result A :=
  match nth_error xs i with
  | Some x => Ok x
  | None => Raise IndexError
  end.

(* ------------------------------------------------------------------ *)
(** ** Tensors *)

Record tensor (D : Type) : Type := mkTensor { shape : list Z; val : D }.
Arguments mkTensor {D} shape val.
Arguments shape {D} t.
Arguments val {D} t.

(** The numerical side of the tensor runtime and of the layers.  Layers
    that own weights are addressed by their attribute name in the module. *)
Class Numerics : Type := {
  data : Type;
  select_val : nat -> tensor data -> data;
  repeat_val : Z -> tensor data -> data;
  cat_val : tensor data -> tensor data -> data;
  stack_val : list (tensor data) -> data;
  relu_val : tensor data -> data;
  pixel_shuffle_val : tensor data -> data;
  conv2d_val : string -> tensor data -> data;
  batch_norm_val : string -> tensor data -> data;
  gblock_val : string -> tensor data -> data;
  upsample_gblock_val : string -> tensor data -> data;
  gru_cell_val : string -> tensor data -> tensor data -> data
}.

Abbreviation Tensor := (tensor data).

Fixpoint shape_eqb (s1 s2 : list Z) : bool :=
  match s1, s2 with
  | [], [] => true
  | d1 :: r1, d2 :: r2 => (d1 =? d2) && shape_eqb r1 r2
  | _, _ => false
  end.

Section TensorRuntime.
Context {N : Numerics}.

(** [t.shape[0]] *)
Definition shape0 (t : Tensor) : result Z :=
  match shape t with
  | d :: _ => Ok d
  | [] => Raise IndexError
  end.

(** [t[i]] on a tensor: selection along the leading axis. *)
Definition tensor_getitem (t : Tensor) (i : nat) : result Tensor :=
  match shape t with
  | d :: rest =>
      if Z.of_nat i <? d then Ok (mkTensor rest (select_val i t))
      else Raise IndexError
  | [] => Raise IndexError
  end.

(** [torch.cat((a, b), dim=1)]: every axis but the channel axis must agree. *)
Definition torch_cat (a b : Tensor) : result Tensor :=
  match shape a, shape b with
  | n1 :: c1 :: r1, n2 :: c2 :: r2 =>
      if (n1 =? n2) && shape_eqb r1 r2
      then Ok (mkTensor (n1 :: c1 + c2 :: r1) (cat_val a b))
      else Raise (ShapeError "cat")
  | _, _ => Raise (ShapeError "cat")
  end.

(** [torch.stack(ts, dim=1)]: a non-empty list of equally shaped tensors;
    the new axis is inserted after the leading one. *)
Definition torch_stack (ts : list Tensor) : result Tensor :=
  match ts with
  | [] => Raise (ShapeError "stack")
  | t :: rest =>
      if forallb (fun u => shape_eqb (shape u) (shape t)) rest
      then match shape t with
           | n :: r => Ok (mkTensor (n :: Z.of_nat (length ts) :: r) (stack_val ts))
           | [] => Raise (ShapeError "stack")
           end
      else Raise (ShapeError "stack")
  end.

(** [einops.repeat(t, "b c h w -> (repeat b) c h w", repeat=r)] *)
Definition einops_repeat (t : Tensor) (r : Z) : result Tensor :=
  match shape t with
  | [b; c; h; w] => Ok (mkTensor [r * b; c; h; w] (repeat_val r t))
  | _ => Raise (ShapeError "einops.repeat")
  end.

(** [F.relu] *)
Definition relu (t : Tensor) : Tensor := mkTensor (shape t) (relu_val t).

(** [PixelShuffle(upscale_factor=2)] on a batched input. *)
Definition PixelShuffle2 (t : Tensor) : result Tensor :=
  match shape t with
  | [n; c; h; w] =>
      if c mod 4 =? 0
      then Ok (mkTensor [n; c / 4; 2 * h; 2 * w] (pixel_shuffle_val t))
      else Raise (ShapeError "pixel_shuffle")
  | _ => Raise (ShapeError "pixel_shuffle")
  end.

(** A layer that maps [(n, in_channels, h, w)] to
    [(n, out_channels, spatial h, spatial w)] and rejects anything else. *)
Definition channel_layer (op : string) (in_channels out_channels : Z)
    (spatial : Z -> Z) (v : Tensor -> data) (t : Tensor) : result Tensor :=
  match shape t with
  | [n; c; h; w] =>
      if c =? in_channels
      then Ok (mkTensor [n; out_channels; spatial h; spatial w] (v t))
      else Raise (ShapeError op)
  | _ => Raise (ShapeError op)
  end.
End TensorRuntime.

(* ------------------------------------------------------------------ *)
(** ** Layers *)

Record Conv2d : Type := mkConv2d {
  conv_name : string; conv_in_channels : Z; conv_out_channels : Z }.

Record BatchNorm2d : Type := mkBatchNorm2d {
  bn_name : string; num_features : Z }.

Record GBlock : Type := mkGBlock {
  g_name : string; g_input_channels : Z; g_output_channels : Z }.

Record UpsampleGBlock : Type := mkUpsampleGBlock {
  up_name : string; up_input_channels : Z; up_output_channels : Z }.

Record ConvGRU : Type := mkConvGRU {
  gru_name : string; gru_input_channels : Z; gru_output_channels : Z;
  gru_kernel_size : Z }.

Section Layers.
Context {N : Numerics}.

(** [spectral_norm(torch.nn.Conv2d(in, out, kernel_size=(1, 1)))]: a 1x1
    convolution keeps the spatial size and checks the channel count. *)
Definition Conv2d_forward (l : Conv2d) (t : Tensor) : result Tensor :=
  channel_layer "conv2d" (conv_in_channels l) (conv_out_channels l)
                (fun h => h) (conv2d_val (conv_name l)) t.

(** [torch.nn.BatchNorm2d(num_features)] *)
Definition BatchNorm2d_forward (l : BatchNorm2d) (t : Tensor) : result Tensor :=
  channel_layer "batch_norm" (num_features l) (num_features l)
                (fun h => h) (batch_norm_val (bn_name l)) t.

(** Modelled from the spec: [GBlock] of [dgmr.common], which is not part
    of the sources at hand.  A residual convolutional refinement block:
    it maps [input_channels] feature maps to [output_channels] feature
    maps of the same spatial size, and fails with a shape mismatch on
    any other input. *)
Definition GBlock_forward (l : GBlock) (t : Tensor) : result Tensor :=
  channel_layer "GBlock" (g_input_channels l) (g_output_channels l)
                (fun h => h) (gblock_val (g_name l)) t.

(** Modelled from the spec: [UpsampleGBlock] of [dgmr.common], which is
    not part of the sources at hand.  A residual block with spatial
    upsampling: it doubles height and width and maps [input_channels]
    to [output_channels] channels. *)
Definition UpsampleGBlock_forward (l : UpsampleGBlock) (t : Tensor) : result Tensor :=
  channel_layer "UpsampleGBlock" (up_input_channels l) (up_output_channels l)
                (fun h => 2 * h) (upsample_gblock_val (up_name l)) t.

(** Modelled from the spec: the recurrence cell of [ConvGRU]
    ([dgmr.layers], not part of the sources at hand).  The gated
    convolutions act on the channel-wise concatenation of the input with
    the previous hidden state, so both must agree on batch and spatial
    size, their channels must add up to [input_channels], and the state
    carries [output_channels] channels; the new state has the shape of
    the previous one. *)
Definition ConvGRUCell_forward (l : ConvGRU) (x prev_state : Tensor) : result Tensor :=
  match shape x, shape prev_state with
  | [n; cx; h; w], [n'; ch; h'; w'] =>
      if (n =? n') && (h =? h') && (w =? w')
         && (cx + ch =? gru_input_channels l) && (ch =? gru_output_channels l)
      then Ok (mkTensor [n; gru_output_channels l; h; w]
                        (gru_cell_val (gru_name l) x prev_state))
      else Raise (ShapeError "ConvGRU")
  | _, _ => Raise (ShapeError "ConvGRU")
  end.

(** Modelled from the spec: [ConvGRU] of [dgmr.layers], which is not part
    of the sources at hand.  Given an ordered sequence of per-timestep
    inputs and one initial hidden state, it produces the sequence of
    hidden states of equal length, one per timestep, by applying the
    shared cell along the time axis. *)
Fixpoint ConvGRU_forward (l : ConvGRU) (x : list Tensor) (hidden_state : Tensor)
  : result (list Tensor) :=
  match x with
  | [] => Ok []
  | x0 :: rest =>
      h <- ConvGRUCell_forward l x0 hidden_state ;;
      hs <- ConvGRU_forward l rest h ;;
      Ok (h :: hs)
  end.
End Layers.

(* ------------------------------------------------------------------ *)
(** ** Python values: configuration records and the latent argument *)

#[warnings="-register-all"]
Inductive pyval : Type :=
| PInt (z : Z)
| PDict (d : list (string * pyval)).

Abbreviation dict := (list (string * pyval)).

(** [d.get(k)] *)
Fixpoint dict_get (d : dict) (k : string) : option pyval :=
  match d with
  | [] => None
  | (k', v) :: rest => if String.eqb k' k then Some v else dict_get rest k
  end.

(** [d.get(k, default)] *)
Definition dict_get_default (d : dict) (k : string) (default : pyval) : pyval :=
  match dict_get d k with
  | Some v => v
  | None => default
  end.

(** [v[k]] for a string key *)
Definition subscript (v : pyval) (k : string) : result pyval :=
  match v with
  | PDict d =>
      match dict_get d k with
      | Some x => Ok x
      | None => Raise (KeyError k)
      end
  | PInt _ => Raise TypeError
  end.

(** Use of a value where integer arithmetic or a repetition count needs it. *)
Definition as_int (v : pyval) : result Z :=
  match v with
  | PInt z => Ok z
  | PDict _ => Raise TypeError
  end.

(** The dictionary that [locals()] yields in [Sampler.__init__] once
    ["__class__"] and ["self"] have been popped. *)
Definition init_locals (forecast_steps latent_channels context_channels
                        output_channels : Z) (kwargs : dict) : pyval :=
  PDict [ ("forecast_steps", PInt forecast_steps);
          ("latent_channels", PInt latent_channels);
          ("context_channels", PInt context_channels);
          ("output_channels", PInt output_channels);
          ("kwargs", PDict kwargs) ].

(** What [Sampler.forward] may be handed as its latent argument: a tensor
    or a list of tensors. *)
Inductive pyobj {N : Numerics} : Type :=
| PTensor (t : Tensor)
| PList (ts : list Tensor).

(** [o[i]] *)
Definition getitem {N : Numerics} (o : pyobj) (i : nat) : result Tensor :=
  match o with
  | PTensor t => tensor_getitem t i
  | PList ts => list_getitem ts i
  end.

(* ------------------------------------------------------------------ *)
(** ** The standard variant: [dgmr_deterministic/dgmr/generators.py] *)

Module Std.

Record Sampler : Type := mkSampler {
  config : pyval;
  forecast_steps : pyval;
  convGRU1 : ConvGRU;
  gru_conv_1x1 : Conv2d;
  g1 : GBlock;
  up_g1 : UpsampleGBlock;
  convGRU2 : ConvGRU;
  gru_conv_1x1_2 : Conv2d;
  g2 : GBlock;
  up_g2 : UpsampleGBlock;
  convGRU3 : ConvGRU;
  gru_conv_1x1_3 : Conv2d;
  g3 : GBlock;
  up_g3 : UpsampleGBlock;
  convGRU4 : ConvGRU;
  gru_conv_1x1_4 : Conv2d;
  g4 : GBlock;
  up_g4 : UpsampleGBlock;
  bn : BatchNorm2d;
  conv_1x1 : Conv2d
}.

(** The part of [Sampler.__init__] that follows the reading of the
    configuration: every sub-module with its channel arithmetic.  The
    constructors of the layers are taken to accept every width. *)
Definition build (config forecast_steps : pyval)
    (latent_channels context_channels output_channels : Z) : Sampler :=
  {| config := config;
     forecast_steps := forecast_steps;
     convGRU1 := mkConvGRU "convGRU1" (latent_channels + context_channels)
                           context_channels 3;
     gru_conv_1x1 := mkConv2d "gru_conv_1x1" context_channels latent_channels;
     g1 := mkGBlock "g1" latent_channels latent_channels;
     up_g1 := mkUpsampleGBlock "up_g1" latent_channels (latent_channels / 2);
     convGRU2 := mkConvGRU "convGRU2" (latent_channels + context_channels / 2)
                           (context_channels / 2) 3;
     gru_conv_1x1_2 := mkConv2d "gru_conv_1x1_2" (context_channels / 2)
                                (latent_channels / 2);
     g2 := mkGBlock "g2" (latent_channels / 2) (latent_channels / 2);
     up_g2 := mkUpsampleGBlock "up_g2" (latent_channels / 2) (latent_channels / 4);
     convGRU3 := mkConvGRU "convGRU3" (latent_channels / 2 + context_channels / 4)
                           (context_channels / 4) 3;
     gru_conv_1x1_3 := mkConv2d "gru_conv_1x1_3" (context_channels / 4)
                                (latent_channels / 4);
     g3 := mkGBlock "g3" (latent_channels / 4) (latent_channels / 4);
     up_g3 := mkUpsampleGBlock "up_g3" (latent_channels / 4) (latent_channels / 8);
     convGRU4 := mkConvGRU "convGRU4" (latent_channels / 4 + context_channels / 8)
                           (context_channels / 8) 3;
     gru_conv_1x1_4 := mkConv2d "gru_conv_1x1_4" (context_channels / 8)
                                (latent_channels / 8);
     g4 := mkGBlock "g4" (latent_channels / 8) (latent_channels / 8);
     up_g4 := mkUpsampleGBlock "up_g4" (latent_channels / 8) (latent_channels / 16);
     bn := mkBatchNorm2d "bn" (latent_channels / 16);
     conv_1x1 := mkConv2d "conv_1x1" (latent_channels / 16) (4 * output_channels)
  |}.

(** [Sampler.__init__(forecast_steps, latent_channels, context_channels,
    output_channels, **kwargs)] *)
Definition init (forecast_steps latent_channels context_channels
                 output_channels : Z) (kwargs : dict) : result Sampler :=
  let config := init_locals forecast_steps latent_channels context_channels
                            output_channels kwargs in
  let self_config := dict_get_default kwargs "config" config in
  forecast_steps <- subscript self_config "forecast_steps" ;;
  latent_channels <- subscript self_config "latent_channels" ;;
  context_channels <- subscript self_config "context_channels" ;;
  output_channels <- subscript self_config "output_channels" ;;
  latent_channels <- as_int latent_channels ;;
  context_channels <- as_int context_channels ;;
  output_channels <- as_int output_channels ;;
  Ok (build self_config forecast_steps latent_channels context_channels
            output_channels).

Section Forward.
Context {N : Numerics}.

(** The values [Sampler.forward] binds on its way: the input sequence
    handed to each ConvGRU, the hidden states once each layer's
    upsampling block has run, and the stacked forecasts. *)
Record trace : Type := mkTrace {
  inputs_layer4 : list Tensor;
  hidden_layer4 : list Tensor;
  inputs_layer3 : list Tensor;
  hidden_layer3 : list Tensor;
  inputs_layer2 : list Tensor;
  hidden_layer2 : list Tensor;
  inputs_layer1 : list Tensor;
  hidden_layer1 : list Tensor;
  forecasts : Tensor
}.

(** The loop
    [for i in range(n): input_states.append(torch.cat((latent_dim[k], hidden_states[i]), dim=1))] *)
Definition cat_latent (latent_dim : pyobj) (k : nat) (hidden_states : list Tensor)
    (n : Z) : result (list Tensor) :=
  mapM (fun i =>
          l <- getitem latent_dim k ;;
          h <- list_getitem hidden_states i ;;
          torch_cat l h)
       (range n).

Definition forward_trace (self : Sampler) (ics : list Tensor) (lcs : pyobj)
  : result trace :=
  let init_states := ics in
  let latent_dim := lcs in
  (* Layer 4 (bottom most) *)
  l3 <- getitem latent_dim 3 ;;
  n <- as_int (forecast_steps self) ;;
  let input_states4 := list_mul l3 n in
  s3 <- list_getitem init_states 3 ;;
  hidden_states <- ConvGRU_forward (convGRU1 self) input_states4 s3 ;;
  hidden_states <- mapM (Conv2d_forward (gru_conv_1x1 self)) hidden_states ;;
  hidden_states <- mapM (GBlock_forward (g1 self)) hidden_states ;;
  hidden_states4 <- mapM (UpsampleGBlock_forward (up_g1 self)) hidden_states ;;
  (* Layer 3. *)
  input_states3 <- cat_latent latent_dim 2 hidden_states4 n ;;
  s2 <- list_getitem init_states 2 ;;
  hidden_states <- ConvGRU_forward (convGRU2 self) input_states3 s2 ;;
  hidden_states <- mapM (Conv2d_forward (gru_conv_1x1_2 self)) hidden_states ;;
  hidden_states <- mapM (GBlock_forward (g2 self)) hidden_states ;;
  hidden_states3 <- mapM (UpsampleGBlock_forward (up_g2 self)) hidden_states ;;
  (* Layer 2. *)
  input_states2 <- cat_latent latent_dim 1 hidden_states3 n ;;
  s1 <- list_getitem init_states 1 ;;
  hidden_states <- ConvGRU_forward (convGRU3 self) input_states2 s1 ;;
  hidden_states <- mapM (Conv2d_forward (gru_conv_1x1_3 self)) hidden_states ;;
  hidden_states <- mapM (GBlock_forward (g3 self)) hidden_states ;;
  hidden_states2 <- mapM (UpsampleGBlock_forward (up_g3 self)) hidden_states ;;
  (* Layer 1 (top-most). *)
  input_states1 <- cat_latent latent_dim 0 hidden_states2 n ;;
  s0 <- list_getitem init_states 0 ;;
  hidden_states <- ConvGRU_forward (convGRU4 self) input_states1 s0 ;;
  hidden_states <- mapM (Conv2d_forward (gru_conv_1x1_4 self)) hidden_states ;;
  hidden_states <- mapM (GBlock_forward (g4 self)) hidden_states ;;
  hidden_states1 <- mapM (UpsampleGBlock_forward (up_g4 self)) hidden_states ;;
  (* Output layer. *)
  hidden_states <- mapM (fun h => b <- BatchNorm2d_forward (bn self) h ;; Ok (relu b))
                        hidden_states1 ;;
  hidden_states <- mapM (Conv2d_forward (conv_1x1 self)) hidden_states ;;
  hidden_states <- mapM PixelShuffle2 hidden_states ;;
  (* Convert forecasts to a torch Tensor *)
  forecasts <- torch_stack hidden_states ;;
  Ok (mkTrace input_states4 hidden_states4 input_states3 hidden_states3
              input_states2 hidden_states2 input_states1 hidden_states1
              forecasts).

(** [Sampler.forward(ics, lcs)] *)
Definition forward (self : Sampler) (ics : list Tensor) (lcs : pyobj)
  : result Tensor :=
  tr <- forward_trace self ics lcs ;;
  Ok (forecasts tr).
End Forward.

End Std.

(* ------------------------------------------------------------------ *)
(** ** The frequency-domain variant: [experiments/dgmr-dct/dgmr/generators.py] *)

Module Dct.

Record Sampler : Type := mkSampler {
  config : pyval;
  forecast_steps : pyval;
  convGRU1 : ConvGRU;
  gru_conv_1x1 : Conv2d;
  g1 : GBlock;
  up_g1 : UpsampleGBlock;
  convGRU2 : ConvGRU;
  gru_conv_1x1_2 : Conv2d;
  g2 : GBlock;
  up_g2 : UpsampleGBlock;
  convGRU3 : ConvGRU;
  gru_conv_1x1_3 : Conv2d;
  g3 : GBlock;
  bn : BatchNorm2d;
  conv_1x1 : Conv2d
}.

(** The part of [Sampler.__init__] that follows the reading of the
    configuration.  The third scale and the output layer are sized by
    [output_channels // 4]; no [up_g3], fourth scale or depth-to-space
    is built. *)
Definition build (config forecast_steps : pyval)
    (latent_channels context_channels output_channels : Z) : Sampler :=
  {| config := config;
     forecast_steps := forecast_steps;
     convGRU1 := mkConvGRU "convGRU1" (latent_channels + context_channels)
                           context_channels 3;
     gru_conv_1x1 := mkConv2d "gru_conv_1x1" context_channels latent_channels;
     g1 := mkGBlock "g1" latent_channels latent_channels;
     up_g1 := mkUpsampleGBlock "up_g1" latent_channels (latent_channels / 2);
     convGRU2 := mkConvGRU "convGRU2" (latent_channels / 2 + context_channels / 2)
                           (context_channels / 2) 3;
     gru_conv_1x1_2 := mkConv2d "gru_conv_1x1_2" (context_channels / 2)
                                (latent_channels / 2);
     g2 := mkGBlock "g2" (latent_channels / 2) (latent_channels / 2);
     up_g2 := mkUpsampleGBlock "up_g2" (latent_channels / 2) (latent_channels / 4);
     convGRU3 := mkConvGRU "convGRU3" (latent_channels / 4 + context_channels / 4)
                           (context_channels / 4) 3;
     gru_conv_1x1_3 := mkConv2d "gru_conv_1x1_3" (context_channels / 4)
                                (output_channels / 4);
     g3 := mkGBlock "g3" (output_channels / 4) (output_channels / 4);
     bn := mkBatchNorm2d "bn" (output_channels / 4);
     conv_1x1 := mkConv2d "conv_1x1" (output_channels / 4) (output_channels / 4)
  |}.

(** [Sampler.__init__(forecast_steps, latent_channels, context_channels,
    output_channels, **kwargs)] *)
Definition init (forecast_steps latent_channels context_channels
                 output_channels : Z) (kwargs : dict) : result Sampler :=
  let config := init_locals forecast_steps latent_channels context_channels
                            output_channels kwargs in
  let self_config := dict_get_default kwargs "config" config in
  forecast_steps <- subscript self_config "forecast_steps" ;;
  latent_channels <- subscript self_config "latent_channels" ;;
  context_channels <- subscript self_config "context_channels" ;;
  output_channels <- subscript self_config "output_channels" ;;
  latent_channels <- as_int latent_channels ;;
  context_channels <- as_int context_channels ;;
  output_channels <- as_int output_channels ;;
  Ok (build self_config forecast_steps latent_channels context_channels
            output_channels).

Section Forward.
Context {N : Numerics}.

(** The values [Sampler.forward] binds on its way: the input sequence
    handed to each ConvGRU, the hidden states that leave each layer,
    and the stacked forecasts. *)
Record trace : Type := mkTrace {
  inputs_layer4 : list Tensor;
  hidden_layer4 : list Tensor;
  inputs_layer3 : list Tensor;
  hidden_layer3 : list Tensor;
  inputs_layer2 : list Tensor;
  hidden_layer2 : list Tensor;
  forecasts : Tensor
}.

Definition forward_trace (self : Sampler) (conditioning_states : list Tensor)
    (latent_dim : Tensor) : result trace :=
  let init_states := conditioning_states in
  (* Expand latent dim to match batch size *)
  s0 <- list_getitem init_states 0 ;;
  r <- shape0 s0 ;;
  latent_dim <- einops_repeat latent_dim r ;;
  n <- as_int (forecast_steps self) ;;
  let hidden_states4_in := list_mul latent_dim n in
  (* Layer 4 (bottom most) *)
  s2 <- list_getitem init_states 2 ;;
  hidden_states <- ConvGRU_forward (convGRU1 self) hidden_states4_in s2 ;;
  hidden_states <- mapM (Conv2d_forward (gru_conv_1x1 self)) hidden_states ;;
  hidden_states <- mapM (GBlock_forward (g1 self)) hidden_states ;;
  hidden_states4 <- mapM (UpsampleGBlock_forward (up_g1 self)) hidden_states ;;
  (* Layer 3. *)
  s1 <- list_getitem init_states 1 ;;
  hidden_states <- ConvGRU_forward (convGRU2 self) hidden_states4 s1 ;;
  hidden_states <- mapM (Conv2d_forward (gru_conv_1x1_2 self)) hidden_states ;;
  hidden_states <- mapM (GBlock_forward (g2 self)) hidden_states ;;
  hidden_states3 <- mapM (UpsampleGBlock_forward (up_g2 self)) hidden_states ;;
  (* Layer 2. *)
  s0 <- list_getitem init_states 0 ;;
  hidden_states <- ConvGRU_forward (convGRU3 self) hidden_states3 s0 ;;
  hidden_states <- mapM (Conv2d_forward (gru_conv_1x1_3 self)) hidden_states ;;
  hidden_states2 <- mapM (GBlock_forward (g3 self)) hidden_states ;;
  hidden_states <- mapM (fun h => b <- BatchNorm2d_forward (bn self) h ;; Ok (relu b))
                        hidden_states2 ;;
  hidden_states <- mapM (Conv2d_forward (conv_1x1 self)) hidden_states ;;
  (* Convert forecasts to a torch Tensor *)
  forecasts <- torch_stack hidden_states ;;
  Ok (mkTrace hidden_states4_in hidden_states4 hidden_states4 hidden_states3
              hidden_states3 hidden_states2 forecasts).

(** [Sampler.forward(conditioning_states, latent_dim)] *)
Definition forward (self : Sampler) (conditioning_states : list Tensor)
    (latent_dim : Tensor) : result Tensor :=
  tr <- forward_trace self conditioning_states latent_dim ;;
  Ok (forecasts tr).
End Forward.

End Dct.

(* ------------------------------------------------------------------ *)
(** ** Well-shaped inputs *)

Section WellShaped.
Context {N : Numerics}.

(** Every tensor of a sequence has the shape [s]. *)
Definition all_shape (s : list Z) (ts : list Tensor) : Prop :=
  Forall (fun t => shape t = s) ts.


(** Inputs of the standard variant that fit a Sampler of widths
    [latent_channels] and [context_channels]: four context tensors and
    four latent tensors, largest first, over batch size [b], the coarsest
    scale of spatial size [h] by [w]. *)
Definition std_well_shaped (latent_channels context_channels b h w : Z)
    (c0 c1 c2 c3 l0 l1 l2 l3 : Tensor) : bool :=
  shape_eqb (shape c3) [b; context_channels; h; w]
  && shape_eqb (shape l3) [b; latent_channels; h; w]
  && shape_eqb (shape c2) [b; context_channels / 2; 2 * h; 2 * w]
  && shape_eqb (shape l2) [b; latent_channels - latent_channels / 2; 2 * h; 2 * w]
  && shape_eqb (shape c1) [b; context_channels / 4; 4 * h; 4 * w]
  && shape_eqb (shape l1)
               [b; latent_channels / 2 - latent_channels / 4; 4 * h; 4 * w]
  && shape_eqb (shape c0) [b; context_channels / 8; 8 * h; 8 * w]
  && shape_eqb (shape l0)
               [b; latent_channels / 4 - latent_channels / 8; 8 * h; 8 * w].

(** Inputs of the frequency-domain variant that fit a Sampler of widths
    [latent_channels] and [context_channels]: the three context tensors
    that are read, largest first, over batch size [b], and a latent
    tensor of batch size [lb] that repetition brings to [b]; [h] by [w]
    is the spatial size of the third context tensor. *)
Definition dct_well_shaped (latent_channels context_channels b lb h w : Z)
    (c0 c1 c2 latent : Tensor) : bool :=
  shape_eqb (shape c2) [b; context_channels; h; w]
  && shape_eqb (shape latent) [lb; latent_channels; h; w]
  && (b * lb =? b)
  && shape_eqb (shape c1) [b; context_channels / 2; 2 * h; 2 * w]
  && shape_eqb (shape c0) [b; context_channels / 4; 4 * h; 4 * w].
End WellShaped.

(* ------------------------------------------------------------------ *)
(** ** Two instances of the numerics, and concrete inputs *)

(** Shapes only: every tensor content is trivial. *)
Definition shape_only : Numerics :=
  {| data := unit;
     select_val := fun _ _ => tt;
     repeat_val := fun _ _ => tt;
     cat_val := fun _ _ => tt;
     stack_val := fun _ => tt;
     relu_val := fun _ => tt;
     pixel_shuffle_val := fun _ => tt;
     conv2d_val := fun _ _ => tt;
     batch_norm_val := fun _ _ => tt;
     gblock_val := fun _ _ => tt;
     upsample_gblock_val := fun _ _ => tt;
     gru_cell_val := fun _ _ _ => tt |}.

(** Symbolic contents: every tensor records the expression that computes it. *)
#[warnings="-register-all"]
Inductive sym : Type :=
| SVar (name : string)
| SNum (z : Z)
| SApp (op : string) (args : list sym).

Definition symbolic : Numerics :=
  {| data := sym;
     select_val := fun i t => SApp "select" [SNum (Z.of_nat i); val t];
     repeat_val := fun r t => SApp "repeat" [SNum r; val t];
     cat_val := fun a b => SApp "cat" [val a; val b];
     stack_val := fun ts => SApp "stack" (map val ts);
     relu_val := fun t => SApp "relu" [val t];
     pixel_shuffle_val := fun t => SApp "pixel_shuffle" [val t];
     conv2d_val := fun name t => SApp name [val t];
     batch_norm_val := fun name t => SApp name [val t];
     gblock_val := fun name t => SApp name [val t];
     upsample_gblock_val := fun name t => SApp name [val t];
     gru_cell_val := fun name x h => SApp name [val x; val h] |}.

Definition blank (s : list Z) : @tensor (@data shape_only) := mkTensor s tt.
Definition named (name : string) (s : list Z) : @tensor (@data symbolic) :=
  mkTensor s (SVar name).

(** The default configuration, [Sampler()], over a batch of two with
    context tensors of spatial sizes 64, 32, 16 and 8. *)
Module DefaultScenario.
Definition sampler : Std.Sampler :=
  Std.build (init_locals 18 768 384 1 []) (PInt 18) 768 384 1.
Definition ics : list (@tensor (@data shape_only)) :=
  [ blank [2; 48; 64; 64]; blank [2; 96; 32; 32];
    blank [2; 192; 16; 16]; blank [2; 384; 8; 8] ].
Definition lcs : @pyobj shape_only :=
  PList [ blank [2; 96; 64; 64]; blank [2; 192; 32; 32];
          blank [2; 384; 16; 16]; blank [2; 768; 8; 8] ].
End DefaultScenario.

(** A small standard Sampler with symbolic contents: two forecast steps,
    16 latent, 8 context and 8 output channels, batch size 1, coarsest
    scale 1 by 1. *)
Module SmallStd.
Definition sampler : Std.Sampler :=
  Std.build (init_locals 2 16 8 8 []) (PInt 2) 16 8 8.
Definition c0 := named "c0" [1; 1; 8; 8].
Definition c1 := named "c1" [1; 2; 4; 4].
Definition c2 := named "c2" [1; 4; 2; 2].
Definition c3 := named "c3" [1; 8; 1; 1].
Definition l0 := named "l0" [1; 2; 8; 8].
Definition l1 := named "l1" [1; 4; 4; 4].
Definition l2 := named "l2" [1; 8; 2; 2].
Definition l3 := named "l3" [1; 16; 1; 1].
Definition ics := [c0; c1; c2; c3].
Definition lcs : @pyobj symbolic := PList [l0; l1; l2; l3].
(** The same context scales over a batch of two. *)
Definition ics_batch2 :=
  [ named "c0" [2; 1; 8; 8]; named "c1" [2; 2; 4; 4];
    named "c2" [2; 4; 2; 2]; named "c3" [2; 8; 1; 1] ].
(** A latent code handed over as one tensor, for one sample and for four. *)
Definition single : @pyobj symbolic := PTensor (named "z" [1; 16; 1; 1]).
Definition single4 : @pyobj symbolic := PTensor (named "z" [4; 16; 1; 1]).
End SmallStd.

(** A small frequency-domain Sampler with symbolic contents: the same
    configuration, a batch of two, one shared latent sample, third context
    tensor 2 by 2. *)
Module SmallDct.
Definition sampler : Dct.Sampler :=
  Dct.build (init_locals 2 16 8 8 []) (PInt 2) 16 8 8.
Definition c0 := named "c0" [2; 2; 8; 8].
Definition c1 := named "c1" [2; 4; 4; 4].
Definition c2 := named "c2" [2; 8; 2; 2].
Definition c3 := named "c3" [2; 16; 1; 1].
Definition latent := named "z" [1; 16; 2; 2].
End SmallDct.

(* ------------------------------------------------------------------ *)
(** ** The Generator wrappers *)

(** The numerical side of the view operations that only
    [Generator.forward] of the frequency-domain variant uses. *)
Class ViewNumerics (N : Numerics) : Type := {
  reshape_val : list Z -> Tensor -> data;
  unsqueeze_val : Tensor -> data
}.

(** Number of elements of a tensor of the given shape. *)
Definition numel (s : list Z) : Z := fold_right Z.mul 1 s.

Section Views.
Context {N : Numerics} {V : ViewNumerics N}.

(** [b, t, c, h, w = x.shape]: the shape must have exactly five entries.
    The [ValueError] of a failed unpacking is recorded as the shape error
    of ["unpack"]. *)
Definition unpack5 (x : Tensor) : result (Z * Z * Z * Z * Z) :=
  match shape x with
  | [b; t; c; h; w] => Ok (b, t, c, h, w)
  | _ => Raise (ShapeError "unpack")
  end.

(** [x.shape[i]] *)
Definition shape_at (x : Tensor) (i : nat) : result Z :=
  match nth_error (shape x) i with
  | Some d => Ok d
  | None => Raise IndexError
  end.

(** [x.reshape(sizes)] for explicit sizes: the number of elements must agree. *)
Definition torch_reshape (x : Tensor) (s : list Z) : result Tensor :=
  if numel (shape x) =? numel s
  then Ok (mkTensor s (reshape_val s x))
  else Raise (ShapeError "reshape").

(** [torch.unsqueeze(x, dim=2)]: a singleton axis is inserted at position 2. *)
Definition unsqueeze2 (x : Tensor) : result Tensor :=
  match shape x with
  | d0 :: d1 :: rest => Ok (mkTensor (d0 :: d1 :: 1 :: rest) (unsqueeze_val x))
  | _ => Raise IndexError
  end.
End Views.

(** [Generator] of the standard variant.  The two conditioning stacks are
    modules handed to the constructor; they are taken as the functions
    their calls compute. *)
Module StdGenerator.
Section Def.
Context {N : Numerics}.

Record Generator : Type := mkGenerator {
  ics : Tensor -> result (list Tensor);
  lcs : Tensor -> result pyobj;
  sampler : Std.Sampler
}.

(** [Generator.forward(x_input, x_last)] *)
Definition forward (self : Generator) (x_input x_last : Tensor) : result Tensor :=
  ics_states <- ics self x_input ;;
  lcs_states <- lcs self x_last ;;
  x <- Std.forward (sampler self) ics_states lcs_states ;;
  Ok x.
End Def.
End StdGenerator.

(** [Generator] of the frequency-domain variant.  The stacks are handed to
    the constructor and the two transform filters are built by
    [common.utils], which is not part of the sources at hand; all four are
    taken as the functions their calls compute. *)
Module DctGenerator.
Section Def.
Context {N : Numerics} {V : ViewNumerics N}.

Record Generator : Type := mkGenerator {
  conditioning_stack : Tensor -> result (list Tensor);
  latent_stack : Tensor -> result Tensor;
  sampler : Dct.Sampler;
  conv_dct : Tensor -> result Tensor;
  conv_idct : Tensor -> result Tensor
}.

(** [Generator.forward(x)] *)
Definition forward (self : Generator) (x : Tensor) : result Tensor :=
  p <- unpack5 x ;;
  let '(b, t, c, h, w) := p in
  x <- torch_reshape x [b * t; c; h; w] ;;
  x <- conv_dct self x ;;
  d1 <- shape_at x 1 ;;
  d2 <- shape_at x 2 ;;
  d3 <- shape_at x 3 ;;
  x <- torch_reshape x [b; t; d1; d2; d3] ;;
  conditioning_states <- conditioning_stack self x ;;
  latent_dim <- latent_stack self x ;;
  x <- Dct.forward (sampler self) conditioning_states latent_dim ;;
  p <- unpack5 x ;;
  let '(b, t, c, h, w) := p in
  x <- torch_reshape x [b * t; c; h; w] ;;
  x <- conv_idct self x ;;
  d1 <- shape_at x 1 ;;
  d2 <- shape_at x 2 ;;
  x <- torch_reshape x [b; t; d1; d2] ;;
  (* add a channel saying this is a 1-D image *)
  x <- unsqueeze2 x ;;
  Ok x.
End Def.
End DctGenerator.

(** View operations for the symbolic numerics, and a small
    frequency-domain Generator around [SmallDct.sampler]: its stacks
    return the tensors of [SmallDct], its forward filter turns 2 by 2
    blocks into 4 channels and its inverse filter returns one plane of
    twice the size per frame. *)
Definition symbolic_views : ViewNumerics symbolic :=
  {| reshape_val := fun s (t : @tensor (@data symbolic)) =>
                      SApp "reshape" (val t :: map SNum s);
     unsqueeze_val := fun (t : @tensor (@data symbolic)) =>
                        SApp "unsqueeze" [val t] |}.

Module SmallDctGenerator.
Definition dct (x : @tensor (@data symbolic)) : result (@tensor (@data symbolic)) :=
  match shape x with
  | [n; c; h; w] => Ok (mkTensor [n; 4 * c; h / 2; w / 2] (SApp "dct" [val x]))
  | _ => Raise (ShapeError "conv_dct")
  end.
Definition idct (x : @tensor (@data symbolic)) : result (@tensor (@data symbolic)) :=
  match shape x with
  | [n; c; h; w] => Ok (mkTensor [n; 2 * h; 2 * w] (SApp "idct" [val x]))
  | _ => Raise (ShapeError "conv_idct")
  end.
Definition generator : @DctGenerator.Generator symbolic :=
  DctGenerator.mkGenerator
    (fun _ => Ok [SmallDct.c0; SmallDct.c1; SmallDct.c2])
    (fun _ => Ok SmallDct.latent)
    SmallDct.sampler dct idct.
Definition frames := named "x" [2; 3; 1; 16; 16].
End SmallDctGenerator.

(** A small standard Generator around [SmallStd.sampler] whose stacks
    return the tensors of [SmallStd]. *)
Module SmallStdGenerator.
Definition generator : @StdGenerator.Generator symbolic :=
  StdGenerator.mkGenerator
    (fun _ => Ok SmallStd.ics) (fun _ => Ok SmallStd.lcs) SmallStd.sampler.
Definition x_input := named "x_input" [1; 4; 1; 16; 16].
Definition x_last := named "x_last" [1; 1; 1; 16; 16].
End SmallStdGenerator.

(* ------------------------------------------------------------------ *)
(** * Properties *)

(** ** The result monad and list comprehensions *)

Lemma bind_ok_inv {A B : Type} (m : result A) (k : A -> result B) (b : B) :
  bind m k = Ok b -> exists a, m = Ok a /\ k a = Ok b.
Proof.
  destruct m as [a | e]; simpl; intros H.
  - exists a. split; [reflexivity | exact H].
  - discriminate H.
Qed.

Ltac bind_inv H :=
  let a := fresh "a" in
  let Ha := fresh "Hstep" in
  apply bind_ok_inv in H; destruct H as [a [Ha H]].

Lemma mapM_Forall2 {A B : Type} (f : A -> result B) (xs : list A) (ys : list B) :
  mapM f xs = Ok ys <-> Forall2 (fun x y => f x = Ok y) xs ys.
Proof.
  revert ys. induction xs as [| x xs IH]; intros ys; simpl.
  - split; intros H.
    + injection H as <-. constructor.
    + inversion H. reflexivity.
  - split; intros H.
    + bind_inv H. bind_inv H. injection H as <-.
      constructor; [assumption | now apply IH].
    + inversion H as [| ? y ? ys' Hf Hrest]; subst.
      rewrite Hf. simpl. apply IH in Hrest. rewrite Hrest. reflexivity.
Qed.

Lemma mapM_length {A B : Type} (f : A -> result B) (xs : list A) (ys : list B) :
  mapM f xs = Ok ys -> length ys = length xs.
Proof.
  intros H. apply mapM_Forall2 in H. symmetry. eapply Forall2_length; eassumption.
Qed.

Lemma Forall2_seq_nth {B : Type} (R : nat -> B -> Prop) (len s : nat) (ys : list B) :
  Forall2 R (seq s len) ys ->
  forall i y, nth_error ys i = Some y -> R (s + i)%nat y.
Proof.
  revert s ys. induction len as [| len IH]; intros s ys H i y Hy; simpl in H.
  - inversion H; subst. destruct i; discriminate Hy.
  - inversion H as [| ? y0 ? ys' Hhd Htl]; subst.
    destruct i as [| i]; simpl in Hy.
    + injection Hy as <-. now rewrite Nat.add_0_r.
    + rewrite <- Nat.add_succ_comm. eapply IH; eassumption.
Qed.

Lemma list_getitem_ok {A : Type} (xs : list A) (i : nat) (x : A) :
  list_getitem xs i = Ok x <-> nth_error xs i = Some x.
Proof.
  unfold list_getitem. destruct (nth_error xs i); split; congruence.
Qed.

Lemma list_getitem_short {A : Type} (xs : list A) (i : nat) :
  (length xs <= i)%nat -> list_getitem xs i = Raise IndexError.
Proof.
  intros H. unfold list_getitem.
  apply nth_error_None in H. now rewrite H.
Qed.

Lemma list_getitem_firstn {A : Type} (k i : nat) (xs : list A) :
  (i < k)%nat -> list_getitem (firstn k xs) i = list_getitem xs i.
Proof.
  intros H. unfold list_getitem. now rewrite nth_error_firstn, (proj2 (Nat.ltb_lt i k) H).
Qed.

Lemma list_getitem_prefix {A : Type} (k i : nat) (xs ys : list A) :
  (i < k)%nat -> firstn k xs = firstn k ys -> list_getitem xs i = list_getitem ys i.
Proof.
  intros Hi H.
  rewrite <- (list_getitem_firstn k i xs Hi), <- (list_getitem_firstn k i ys Hi).
  now rewrite H.
Qed.

Lemma list_mul_length {A : Type} (x : A) (n : Z) :
  length (list_mul x n) = Z.to_nat n.
Proof. apply repeat_length. Qed.

Lemma shape_eqb_eq (s1 s2 : list Z) : shape_eqb s1 s2 = true <-> s1 = s2.
Proof.
  revert s2. induction s1 as [| d1 r1 IH]; intros [| d2 r2]; simpl;
    try (split; [discriminate | congruence]); try tauto.
  rewrite andb_true_iff, Z.eqb_eq, IH. split.
  - intros [-> ->]. reflexivity.
  - intros H. injection H as -> ->. split; reflexivity.
Qed.

Lemma shape_eqb_refl (s : list Z) : shape_eqb s s = true.
Proof. now apply shape_eqb_eq. Qed.

(** ** Shape contracts of the tensor operations and of the layers *)

Section ShapeLemmas.
Context {N : Numerics}.

Lemma all_shape_repeat (s : list Z) (t : Tensor) (n : nat) :
  shape t = s -> all_shape s (repeat t n).
Proof.
  intros H. induction n; simpl; constructor; assumption.
Qed.

Lemma mapM_all_shape (f : Tensor -> result Tensor) (s s' : list Z) (xs : list Tensor) :
  (forall t, shape t = s -> exists u, f t = Ok u /\ shape u = s') ->
  all_shape s xs ->
  exists ys, mapM f xs = Ok ys /\ length ys = length xs /\ all_shape s' ys.
Proof.
  intros Hf Hxs. induction Hxs as [| x xs Hx _ IH]; simpl.
  - exists []. repeat split. constructor.
  - destruct (Hf x Hx) as [u [Hu Hsu]]. destruct IH as [ys [Hys [Hlen Hall]]].
    exists (u :: ys). rewrite Hu, Hys. simpl. repeat split.
    + now rewrite Hlen.
    + constructor; assumption.
Qed.

Lemma channel_layer_shape (op : string) (cin cout : Z) (sp : Z -> Z)
    (v : Tensor -> data) (n h w : Z) (t : Tensor) :
  shape t = [n; cin; h; w] ->
  exists u, channel_layer op cin cout sp v t = Ok u
            /\ shape u = [n; cout; sp h; sp w].
Proof.
  intros H. unfold channel_layer. rewrite H, Z.eqb_refl.
  eexists. split; reflexivity.
Qed.

Lemma batch_norm_relu_shape (l : BatchNorm2d) (n h w : Z) (t : Tensor) :
  shape t = [n; num_features l; h; w] ->
  exists u, (b <- BatchNorm2d_forward l t ;; Ok (relu b)) = Ok u
            /\ shape u = [n; num_features l; h; w].
Proof.
  intros H. unfold BatchNorm2d_forward.
  destruct (channel_layer_shape "batch_norm" _ (num_features l) (fun h => h)
              (batch_norm_val (bn_name l)) _ _ _ _ H) as [u [Hu Hs]].
  rewrite Hu. simpl. eexists. split; [reflexivity | exact Hs].
Qed.

Lemma PixelShuffle2_shape (n c h w : Z) (t : Tensor) :
  shape t = [n; 4 * c; h; w] ->
  exists u, PixelShuffle2 t = Ok u /\ shape u = [n; c; 2 * h; 2 * w].
Proof.
  intros H. unfold PixelShuffle2. rewrite H.
  rewrite Z.mul_comm, Z_mod_mult, Z.div_mul by lia. simpl.
  eexists. split; reflexivity.
Qed.

Lemma ConvGRUCell_shape (l : ConvGRU) (n cx h w : Z) (x p : Tensor) :
  shape x = [n; cx; h; w] ->
  shape p = [n; gru_output_channels l; h; w] ->
  cx + gru_output_channels l = gru_input_channels l ->
  exists u, ConvGRUCell_forward l x p = Ok u
            /\ shape u = [n; gru_output_channels l; h; w].
Proof.
  intros Hx Hp Hc. unfold ConvGRUCell_forward. rewrite Hx, Hp, Hc.
  rewrite !Z.eqb_refl. simpl. eexists. split; reflexivity.
Qed.

Lemma ConvGRU_all_shape (l : ConvGRU) (n cx h w : Z) (xs : list Tensor) :
  cx + gru_output_channels l = gru_input_channels l ->
  all_shape [n; cx; h; w] xs ->
  forall h0, shape h0 = [n; gru_output_channels l; h; w] ->
  exists hs, ConvGRU_forward l xs h0 = Ok hs
             /\ length hs = length xs
             /\ all_shape [n; gru_output_channels l; h; w] hs.
Proof.
  intros Hc Hxs. induction Hxs as [| x xs Hx _ IH]; intros h0 Hh0; simpl.
  - exists []. repeat split. constructor.
  - destruct (ConvGRUCell_shape l n cx h w x h0 Hx Hh0 Hc) as [u [Hu Hsu]].
    destruct (IH u Hsu) as [hs [Hhs [Hlen Hall]]].
    exists (u :: hs). rewrite Hu. simpl. rewrite Hhs. simpl. repeat split.
    + now rewrite Hlen.
    + constructor; assumption.
Qed.

Lemma ConvGRU_length (l : ConvGRU) (xs hs : list Tensor) :
  forall h0, ConvGRU_forward l xs h0 = Ok hs -> length hs = length xs.
Proof.
  revert hs. induction xs as [| x xs IH]; intros hs h0 H; simpl in H.
  - injection H as <-. reflexivity.
  - bind_inv H. bind_inv H. injection H as <-. simpl. f_equal. eapply IH; eassumption.
Qed.

Lemma torch_cat_shape (n c1 c2 h w : Z) (a b : Tensor) :
  shape a = [n; c1; h; w] -> shape b = [n; c2; h; w] ->
  exists u, torch_cat a b = Ok u /\ shape u = [n; c1 + c2; h; w].
Proof.
  intros Ha Hb. unfold torch_cat. rewrite Ha, Hb, Z.eqb_refl, shape_eqb_refl. simpl.
  eexists. split; reflexivity.
Qed.

Lemma torch_stack_shape (n : Z) (r : list Z) (ts : list Tensor) :
  ts <> [] -> all_shape (n :: r) ts ->
  exists u, torch_stack ts = Ok u
            /\ shape u = n :: Z.of_nat (length ts) :: r.
Proof.
  intros Hne Hall. destruct ts as [| t rest]; [congruence |].
  inversion Hall as [| ? ? Ht Hrest]; subst.
  unfold torch_stack.
  assert (Hfor : forallb (fun u => shape_eqb (shape u) (shape t)) rest = true).
  { apply forallb_forall. intros u Hu.
    rewrite Forall_forall in Hrest. rewrite (Hrest u Hu), Ht. apply shape_eqb_refl. }
  rewrite Hfor, Ht. eexists. split; reflexivity.
Qed.

(** When the hidden states cover the whole range, the loop that builds
    the next input sequence is a comprehension over them. *)
Lemma cat_latent_mapM (latent_dim : pyobj) (k : nat) (l : Tensor)
    (hs : list Tensor) (n : Z) :
  getitem latent_dim k = Ok l ->
  length hs = Z.to_nat n ->
  Std.cat_latent latent_dim k hs n = mapM (torch_cat l) hs.
Proof.
  intros Hl Hlen. unfold Std.cat_latent, range. rewrite <- Hlen. clear Hlen n.
  rewrite Hl. cbn [bind].
  change hs with (@nil Tensor ++ hs)%list at 1.
  change 0%nat with (length (@nil Tensor)).
  generalize (@nil Tensor) as pre.
  induction hs as [| h hs IH]; intros pre; simpl; [reflexivity |].
  unfold list_getitem at 1. rewrite nth_error_app2, Nat.sub_diag by lia. simpl.
  destruct (torch_cat l h) as [u | e]; simpl; [| reflexivity].
  replace (pre ++ h :: hs)%list with ((pre ++ [h]) ++ hs)%list by now rewrite <- app_assoc.
  replace (S (length pre)) with (length (pre ++ [h])%list) by (rewrite length_app; simpl; lia).
  now rewrite IH.
Qed.

(** Whatever the loop returns is, position by position, the
    concatenation of the latent entry with the hidden state. *)
Lemma cat_latent_inv (latent_dim : pyobj) (k : nat) (hs xs : list Tensor) (n : Z) :
  Std.cat_latent latent_dim k hs n = Ok xs ->
  length xs = Z.to_nat n
  /\ forall i x, nth_error xs i = Some x ->
       exists l h, getitem latent_dim k = Ok l
                   /\ nth_error hs i = Some h
                   /\ torch_cat l h = Ok x.
Proof.
  unfold Std.cat_latent, range. intros H. apply mapM_Forall2 in H. split.
  - apply Forall2_length in H. now rewrite length_seq in H.
  - intros i x Hx.
    pose proof (Forall2_seq_nth _ _ _ _ H i x Hx) as Hi. simpl in Hi.
    bind_inv Hi. bind_inv Hi. apply list_getitem_ok in Hstep0. eauto.
Qed.
End ShapeLemmas.

(** ** One scale of the decoder *)

Section Stages.
Context {N : Numerics}.

Lemma Conv2d_shape (l : Conv2d) (n h w : Z) (t : Tensor) :
  shape t = [n; conv_in_channels l; h; w] ->
  exists u, Conv2d_forward l t = Ok u /\ shape u = [n; conv_out_channels l; h; w].
Proof.
  intros H.
  exact (channel_layer_shape "conv2d" _ (conv_out_channels l) (fun h => h)
           (conv2d_val (conv_name l)) _ _ _ _ H).
Qed.

Lemma GBlock_shape (l : GBlock) (n h w : Z) (t : Tensor) :
  shape t = [n; g_input_channels l; h; w] ->
  exists u, GBlock_forward l t = Ok u /\ shape u = [n; g_output_channels l; h; w].
Proof.
  intros H.
  exact (channel_layer_shape "GBlock" _ (g_output_channels l) (fun h => h)
           (gblock_val (g_name l)) _ _ _ _ H).
Qed.

Lemma UpsampleGBlock_shape (l : UpsampleGBlock) (n h w : Z) (t : Tensor) :
  shape t = [n; up_input_channels l; h; w] ->
  exists u, UpsampleGBlock_forward l t = Ok u
            /\ shape u = [n; up_output_channels l; 2 * h; 2 * w].
Proof.
  intros H.
  exact (channel_layer_shape "UpsampleGBlock" _ (up_output_channels l)
           (fun h => 2 * h) (upsample_gblock_val (up_name l)) _ _ _ _ H).
Qed.

(** A ConvGRU followed by its 1x1 projection and its refinement block:
    on inputs of one shape that fit the layer widths, all three succeed
    and keep the length of the sequence. *)
Lemma refine_shape (gru : ConvGRU) (conv : Conv2d) (g : GBlock)
    (n cx h w : Z) (xs : list Tensor) (h0 : Tensor) :
  cx + gru_output_channels gru = gru_input_channels gru ->
  conv_in_channels conv = gru_output_channels gru ->
  g_input_channels g = conv_out_channels conv ->
  all_shape [n; cx; h; w] xs ->
  shape h0 = [n; gru_output_channels gru; h; w] ->
  exists hs1 hs2 hs3,
    ConvGRU_forward gru xs h0 = Ok hs1
    /\ mapM (Conv2d_forward conv) hs1 = Ok hs2
    /\ mapM (GBlock_forward g) hs2 = Ok hs3
    /\ length hs3 = length xs
    /\ all_shape [n; g_output_channels g; h; w] hs3.
Proof.
  intros Hgru Hconv Hg Hxs Hh0.
  destruct (ConvGRU_all_shape gru n cx h w xs Hgru Hxs h0 Hh0) as (hs1 & E1 & L1 & A1).
  rewrite <- Hconv in A1.
  destruct (mapM_all_shape (Conv2d_forward conv) _ _ hs1
              (fun t => Conv2d_shape conv n h w t) A1) as (hs2 & E2 & L2 & A2).
  rewrite <- Hg in A2.
  destruct (mapM_all_shape (GBlock_forward g) _ _ hs2
              (fun t => GBlock_shape g n h w t) A2) as (hs3 & E3 & L3 & A3).
  exists hs1, hs2, hs3. repeat split; try assumption. congruence.
Qed.

(** The same followed by the upsampling block, which doubles the spatial size. *)
Lemma scale_shape (gru : ConvGRU) (conv : Conv2d) (g : GBlock) (up : UpsampleGBlock)
    (n cx h w : Z) (xs : list Tensor) (h0 : Tensor) :
  cx + gru_output_channels gru = gru_input_channels gru ->
  conv_in_channels conv = gru_output_channels gru ->
  g_input_channels g = conv_out_channels conv ->
  up_input_channels up = g_output_channels g ->
  all_shape [n; cx; h; w] xs ->
  shape h0 = [n; gru_output_channels gru; h; w] ->
  exists hs1 hs2 hs3 hs4,
    ConvGRU_forward gru xs h0 = Ok hs1
    /\ mapM (Conv2d_forward conv) hs1 = Ok hs2
    /\ mapM (GBlock_forward g) hs2 = Ok hs3
    /\ mapM (UpsampleGBlock_forward up) hs3 = Ok hs4
    /\ length hs4 = length xs
    /\ all_shape [n; up_output_channels up; 2 * h; 2 * w] hs4.
Proof.
  intros Hgru Hconv Hg Hup Hxs Hh0.
  destruct (refine_shape gru conv g n cx h w xs h0 Hgru Hconv Hg Hxs Hh0)
    as (hs1 & hs2 & hs3 & E1 & E2 & E3 & L3 & A3).
  rewrite <- Hup in A3.
  destruct (mapM_all_shape (UpsampleGBlock_forward up) _ _ hs3
              (fun t => UpsampleGBlock_shape up n h w t) A3) as (hs4 & E4 & L4 & A4).
  exists hs1, hs2, hs3, hs4. repeat split; try assumption. congruence.
Qed.

(** The input sequence of a later layer of the standard variant. *)
Lemma cat_latent_shape (latent_dim : pyobj) (k : nat) (l : Tensor)
    (n cl ch h w fs : Z) (hs : list Tensor) :
  getitem latent_dim k = Ok l ->
  shape l = [n; cl; h; w] ->
  length hs = Z.to_nat fs ->
  all_shape [n; ch; h; w] hs ->
  exists xs, Std.cat_latent latent_dim k hs fs = Ok xs
             /\ length xs = Z.to_nat fs
             /\ all_shape [n; cl + ch; h; w] xs.
Proof.
  intros Hl Hsl Hlen Hall.
  rewrite (cat_latent_mapM latent_dim k l hs fs Hl Hlen).
  destruct (mapM_all_shape (torch_cat l) _ _ hs
              (fun t => torch_cat_shape n cl ch h w l t Hsl) Hall) as (xs & E & L & A).
  exists xs. repeat split; try assumption. congruence.
Qed.

Lemma all_shape_eq (s s' : list Z) (ts : list Tensor) :
  s = s' -> all_shape s ts -> all_shape s' ts.
Proof. now intros ->. Qed.
End Stages.

(** ** The forward pass on well-shaped inputs *)

Section ForwardShapes.
Context {N : Numerics}.

Lemma std_well_shaped_inv (lc cc b h w : Z) (c0 c1 c2 c3 l0 l1 l2 l3 : Tensor) :
  std_well_shaped lc cc b h w c0 c1 c2 c3 l0 l1 l2 l3 = true ->
  shape c3 = [b; cc; h; w] /\ shape l3 = [b; lc; h; w]
  /\ shape c2 = [b; cc / 2; 2 * h; 2 * w]
  /\ shape l2 = [b; lc - lc / 2; 2 * h; 2 * w]
  /\ shape c1 = [b; cc / 4; 4 * h; 4 * w]
  /\ shape l1 = [b; lc / 2 - lc / 4; 4 * h; 4 * w]
  /\ shape c0 = [b; cc / 8; 8 * h; 8 * w]
  /\ shape l0 = [b; lc / 4 - lc / 8; 8 * h; 8 * w].
Proof.
  unfold std_well_shaped. rewrite !andb_true_iff, !shape_eqb_eq. tauto.
Qed.

Ltac run E := rewrite E; cbn [bind]; clear E.

Ltac widths :=
  try reflexivity; try assumption;
  try (repeat match goal with s := _ |- _ => subst s end;
       cbv delta [Std.build Dct.build]; cbv beta;
       cbn [Std.convGRU1 Std.gru_conv_1x1 Std.g1 Std.up_g1
            Std.convGRU2 Std.gru_conv_1x1_2 Std.g2 Std.up_g2
            Std.convGRU3 Std.gru_conv_1x1_3 Std.g3 Std.up_g3
            Std.convGRU4 Std.gru_conv_1x1_4 Std.g4 Std.up_g4
            Std.bn Std.conv_1x1
            Dct.convGRU1 Dct.gru_conv_1x1 Dct.g1 Dct.up_g1
            Dct.convGRU2 Dct.gru_conv_1x1_2 Dct.g2 Dct.up_g2
            Dct.convGRU3 Dct.gru_conv_1x1_3 Dct.g3 Dct.bn Dct.conv_1x1
            gru_input_channels gru_output_channels conv_in_channels
            conv_out_channels g_input_channels g_output_channels
            up_input_channels up_output_channels num_features];
       first [ lia | repeat (apply (f_equal2 (@cons Z)); [lia |]); reflexivity ]).

Lemma std_forward_trace_ok (cfg : pyval) (fs lc cc oc b h w : Z)
    (c0 c1 c2 c3 l0 l1 l2 l3 : Tensor) :
  0 < fs ->
  std_well_shaped lc cc b h w c0 c1 c2 c3 l0 l1 l2 l3 = true ->
  exists tr,
    Std.forward_trace (Std.build cfg (PInt fs) lc cc oc)
                      [c0; c1; c2; c3] (PList [l0; l1; l2; l3]) = Ok tr
    /\ shape (Std.forecasts tr) = [b; fs; oc; 32 * h; 32 * w].
Proof.
  intros Hfs Hws.
  apply std_well_shaped_inv in Hws.
  destruct Hws as (Hc3 & Hl3 & Hc2 & Hl2 & Hc1 & Hl1 & Hc0 & Hl0).
  unfold Std.forward_trace.
  set (S := Std.build cfg (PInt fs) lc cc oc).
  change (Std.forecast_steps S) with (PInt fs).
  cbn [getitem list_getitem nth_error as_int bind].
  (* Layer 4 *)
  destruct (scale_shape (Std.convGRU1 S) (Std.gru_conv_1x1 S) (Std.g1 S) (Std.up_g1 S)
              b lc h w (list_mul l3 fs) c3)
    as (a1 & a2 & a3 & h4 & E1 & E2 & E3 & E4 & L4 & A4); widths.
  { now apply all_shape_repeat. }
  run E1. run E2. run E3. run E4. clear a1 a2 a3.
  rewrite list_mul_length in L4.
  (* Layer 3 *)
  destruct (cat_latent_shape (PList [l0; l1; l2; l3]) 2 l2 b (lc - lc / 2) (lc / 2)
              (2 * h) (2 * w) fs h4 eq_refl Hl2 L4 A4) as (x3 & E & Lx3 & Ax3).
  run E.
  destruct (scale_shape (Std.convGRU2 S) (Std.gru_conv_1x1_2 S) (Std.g2 S) (Std.up_g2 S)
              b (lc - lc / 2 + lc / 2) (2 * h) (2 * w) x3 c2)
    as (a1 & a2 & a3 & h3 & E1 & E2 & E3 & E4 & L3 & A3); widths.
  run E1. run E2. run E3. run E4. clear a1 a2 a3.
  rewrite Lx3 in L3.
  apply (all_shape_eq _ [b; lc / 4; 4 * h; 4 * w]) in A3; [| widths].
  (* Layer 2 *)
  destruct (cat_latent_shape (PList [l0; l1; l2; l3]) 1 l1 b (lc / 2 - lc / 4) (lc / 4)
              (4 * h) (4 * w) fs h3 eq_refl Hl1 L3 A3) as (x2 & E & Lx2 & Ax2).
  run E.
  destruct (scale_shape (Std.convGRU3 S) (Std.gru_conv_1x1_3 S) (Std.g3 S) (Std.up_g3 S)
              b (lc / 2 - lc / 4 + lc / 4) (4 * h) (4 * w) x2 c1)
    as (a1 & a2 & a3 & h2 & E1 & E2 & E3 & E4 & L2 & A2); widths.
  run E1. run E2. run E3. run E4. clear a1 a2 a3.
  rewrite Lx2 in L2.
  apply (all_shape_eq _ [b; lc / 8; 8 * h; 8 * w]) in A2; [| widths].
  (* Layer 1 *)
  destruct (cat_latent_shape (PList [l0; l1; l2; l3]) 0 l0 b (lc / 4 - lc / 8) (lc / 8)
              (8 * h) (8 * w) fs h2 eq_refl Hl0 L2 A2) as (x1 & E & Lx1 & Ax1).
  run E.
  destruct (scale_shape (Std.convGRU4 S) (Std.gru_conv_1x1_4 S) (Std.g4 S) (Std.up_g4 S)
              b (lc / 4 - lc / 8 + lc / 8) (8 * h) (8 * w) x1 c0)
    as (a1 & a2 & a3 & h1 & E1 & E2 & E3 & E4 & L1 & A1); widths.
  run E1. run E2. run E3. run E4. clear a1 a2 a3.
  rewrite Lx1 in L1.
  (* Output layer *)
  destruct (mapM_all_shape _ _ _ h1
              (fun t => batch_norm_relu_shape (Std.bn S) b (2 * (8 * h)) (2 * (8 * w)) t) A1)
    as (o1 & E & Lo1 & Ao1).
  run E.
  destruct (mapM_all_shape _ _ _ o1
              (fun t => Conv2d_shape (Std.conv_1x1 S) b (2 * (8 * h)) (2 * (8 * w)) t) Ao1)
    as (o2 & E & Lo2 & Ao2).
  run E.
  destruct (mapM_all_shape _ _ _ o2
              (fun t => PixelShuffle2_shape b oc (2 * (8 * h)) (2 * (8 * w)) t) Ao2)
    as (o3 & E & Lo3 & Ao3).
  run E.
  assert (Hlen : length o3 = Z.to_nat fs) by congruence.
  destruct (torch_stack_shape b [oc; 2 * (2 * (8 * h)); 2 * (2 * (8 * w))] o3)
    as (f & E & Hf); [| exact Ao3 |].
  { intros ->. simpl in Hlen. lia. }
  run E.
  eexists. split; [reflexivity |].
  cbn [Std.forecasts]. rewrite Hf, Hlen, Z2Nat.id by lia.
  repeat (apply (f_equal2 (@cons Z)); [lia |]); reflexivity.
Qed.

Lemma dct_well_shaped_inv (lc cc b lb h w : Z) (c0 c1 c2 latent : Tensor) :
  dct_well_shaped lc cc b lb h w c0 c1 c2 latent = true ->
  shape c2 = [b; cc; h; w] /\ shape latent = [lb; lc; h; w] /\ b * lb = b
  /\ shape c1 = [b; cc / 2; 2 * h; 2 * w]
  /\ shape c0 = [b; cc / 4; 4 * h; 4 * w].
Proof.
  unfold dct_well_shaped. rewrite !andb_true_iff, !shape_eqb_eq, Z.eqb_eq. tauto.
Qed.

Lemma dct_forward_trace_ok (cfg : pyval) (fs lc cc oc b lb h w : Z)
    (c0 c1 c2 latent : Tensor) (rest : list Tensor) :
  0 < fs ->
  dct_well_shaped lc cc b lb h w c0 c1 c2 latent = true ->
  exists tr,
    Dct.forward_trace (Dct.build cfg (PInt fs) lc cc oc)
                      (c0 :: c1 :: c2 :: rest) latent = Ok tr
    /\ shape (Dct.forecasts tr) = [b; fs; oc / 4; 4 * h; 4 * w].
Proof.
  intros Hfs Hws.
  apply dct_well_shaped_inv in Hws.
  destruct Hws as (Hc2 & Hlat & Hb & Hc1 & Hc0).
  unfold Dct.forward_trace.
  set (S := Dct.build cfg (PInt fs) lc cc oc).
  change (Dct.forecast_steps S) with (PInt fs).
  cbn [list_getitem nth_error bind].
  unfold shape0, einops_repeat. rewrite Hc0, Hlat. cbn [bind as_int].
  rewrite Hb.
  set (z := mkTensor [b; lc; h; w] (repeat_val b latent)).
  (* Layer 4 *)
  destruct (scale_shape (Dct.convGRU1 S) (Dct.gru_conv_1x1 S) (Dct.g1 S) (Dct.up_g1 S)
              b lc h w (list_mul z fs) c2)
    as (a1 & a2 & a3 & h4 & E1 & E2 & E3 & E4 & L4 & A4); widths.
  { now apply all_shape_repeat. }
  run E1. run E2. run E3. run E4. clear a1 a2 a3.
  rewrite list_mul_length in L4.
  (* Layer 3 *)
  destruct (scale_shape (Dct.convGRU2 S) (Dct.gru_conv_1x1_2 S) (Dct.g2 S) (Dct.up_g2 S)
              b (lc / 2) (2 * h) (2 * w) h4 c1)
    as (a1 & a2 & a3 & h3 & E1 & E2 & E3 & E4 & L3 & A3); widths.
  run E1. run E2. run E3. run E4. clear a1 a2 a3.
  apply (all_shape_eq _ [b; lc / 4; 4 * h; 4 * w]) in A3; [| widths].
  (* Layer 2 *)
  destruct (refine_shape (Dct.convGRU3 S) (Dct.gru_conv_1x1_3 S) (Dct.g3 S)
              b (lc / 4) (4 * h) (4 * w) h3 c0)
    as (a1 & a2 & h2 & E1 & E2 & E3 & L2 & A2); widths.
  run E1. run E2. run E3. clear a1 a2.
  destruct (mapM_all_shape _ _ _ h2
              (fun t => batch_norm_relu_shape (Dct.bn S) b (4 * h) (4 * w) t) A2)
    as (o1 & E & Lo1 & Ao1).
  run E.
  destruct (mapM_all_shape _ _ _ o1
              (fun t => Conv2d_shape (Dct.conv_1x1 S) b (4 * h) (4 * w) t) Ao1)
    as (o2 & E & Lo2 & Ao2).
  run E.
  assert (Hlen : length o2 = Z.to_nat fs) by congruence.
  destruct (torch_stack_shape b [oc / 4; 4 * h; 4 * w] o2)
    as (f & E & Hf); [| exact Ao2 |].
  { intros ->. simpl in Hlen. lia. }
  run E.
  eexists. split; [reflexivity |].
  cbn [Dct.forecasts]. rewrite Hf, Hlen, Z2Nat.id by lia. reflexivity.
Qed.
End ForwardShapes.

(** ** What a successful call has computed *)

Section TraceInversion.
Context {N : Numerics}.

Lemma torch_stack_nonempty (ts : list Tensor) (t : Tensor) :
  torch_stack ts = Ok t -> ts <> [].
Proof. destruct ts; [discriminate | congruence]. Qed.

Lemma as_int_ok (v : pyval) (n : Z) : as_int v = Ok n -> v = PInt n.
Proof. destruct v; simpl; congruence. Qed.

Ltac lengths :=
  repeat match goal with
    | H : mapM _ _ = Ok _ |- _ => apply mapM_length in H
    | H : ConvGRU_forward _ _ _ = Ok _ |- _ => apply ConvGRU_length in H
    | H : Std.cat_latent _ _ _ _ = Ok _ |- _ =>
        let L := fresh "L" in
        pose proof (proj1 (cat_latent_inv _ _ _ _ _ H)) as L; revert H
    end;
  intros; rewrite ?list_mul_length in *.

(* A stack that succeeded had a frame to stack, so the horizon is positive. *)
Ltac positive_steps :=
  match goal with
  | H : torch_stack ?ts = Ok _ |- exists _, _ = PInt ?n /\ _ =>
      assert (0 < n)
        by (apply torch_stack_nonempty in H; lengths;
            destruct ts; [congruence | simpl in *; lia])
  | H : torch_stack ?ts = Ok _ |- _ = PInt ?n /\ _ =>
      assert (0 < n)
        by (apply torch_stack_nonempty in H; lengths;
            destruct ts; [congruence | simpl in *; lia])
  end.

Lemma std_trace_inv (self : Std.Sampler) (ics : list Tensor) (lcs : pyobj)
    (tr : Std.trace) :
  Std.forward_trace self ics lcs = Ok tr ->
  exists n l3,
    Std.forecast_steps self = PInt n /\ 0 < n
    /\ getitem lcs 3 = Ok l3
    /\ Std.inputs_layer4 tr = list_mul l3 n
    /\ length (Std.hidden_layer4 tr) = Z.to_nat n
    /\ Std.cat_latent lcs 2 (Std.hidden_layer4 tr) n = Ok (Std.inputs_layer3 tr)
    /\ length (Std.hidden_layer3 tr) = Z.to_nat n
    /\ Std.cat_latent lcs 1 (Std.hidden_layer3 tr) n = Ok (Std.inputs_layer2 tr)
    /\ length (Std.hidden_layer2 tr) = Z.to_nat n
    /\ Std.cat_latent lcs 0 (Std.hidden_layer2 tr) n = Ok (Std.inputs_layer1 tr)
    /\ exists s3 hs,
         list_getitem ics 3 = Ok s3
         /\ ConvGRU_forward (Std.convGRU1 self) (Std.inputs_layer4 tr) s3 = Ok hs.
Proof.
  unfold Std.forward_trace. intros H.
  repeat bind_inv H. injection H as <-.
  cbn [Std.inputs_layer4 Std.hidden_layer4 Std.inputs_layer3 Std.hidden_layer3
       Std.inputs_layer2 Std.hidden_layer2 Std.inputs_layer1].
  match goal with
    H1 : list_getitem ics 3 = Ok ?s,
    H2 : ConvGRU_forward (Std.convGRU1 self) ?xs ?s = Ok ?hs |- _ =>
      assert (Hgru : exists s3 hs, list_getitem ics 3 = Ok s3
                                   /\ ConvGRU_forward (Std.convGRU1 self) xs s3 = Ok hs)
        by (exists s, hs; split; assumption)
  end.
  match goal with H : as_int _ = Ok ?n |- _ => apply as_int_ok in H; exists n end.
  match goal with H : getitem lcs 3 = Ok ?l |- _ => exists l end.
  positive_steps.
  lengths.
  repeat split; try assumption; try congruence.
Qed.

Lemma dct_trace_inv (self : Dct.Sampler) (ics : list Tensor) (latent : Tensor)
    (tr : Dct.trace) :
  Dct.forward_trace self ics latent = Ok tr ->
  exists n s0 r z,
    Dct.forecast_steps self = PInt n /\ 0 < n
    /\ list_getitem ics 0 = Ok s0 /\ shape0 s0 = Ok r
    /\ einops_repeat latent r = Ok z
    /\ Dct.inputs_layer4 tr = list_mul z n
    /\ length (Dct.hidden_layer4 tr) = Z.to_nat n
    /\ Dct.inputs_layer3 tr = Dct.hidden_layer4 tr
    /\ length (Dct.hidden_layer3 tr) = Z.to_nat n
    /\ Dct.inputs_layer2 tr = Dct.hidden_layer3 tr.
Proof.
  unfold Dct.forward_trace. intros H.
  repeat bind_inv H. injection H as <-.
  cbn [Dct.inputs_layer4 Dct.hidden_layer4 Dct.inputs_layer3 Dct.hidden_layer3
       Dct.inputs_layer2 Dct.hidden_layer2].
  match goal with H : as_int _ = Ok ?n |- _ => apply as_int_ok in H; exists n end.
  match goal with
    H1 : list_getitem ics 0 = Ok ?s, H2 : shape0 ?s = Ok ?r,
    H3 : einops_repeat latent ?r = Ok ?z |- _ => exists s, r, z
  end.
  positive_steps.
  lengths.
  repeat split; try assumption; try congruence.
Qed.
End TraceInversion.

(** ** Which context entries are read *)

Section ContextEntries.
Context {N : Numerics}.

Lemma getitem_raises (o : pyobj) (i : nat) (e : exn) :
  getitem o i = Raise e -> e = IndexError.
Proof.
  destruct o as [t | ts]; simpl.
  - unfold tensor_getitem. destruct (shape t) as [| d rest]; [congruence |].
    destruct (Z.of_nat i <? d); congruence.
  - unfold list_getitem. destruct (nth_error ts i); congruence.
Qed.

(** The standard variant reads the context entries 0 to 3 and no other. *)
Lemma std_forward_trace_prefix (self : Std.Sampler) (ics ics' : list Tensor)
    (lcs : pyobj) :
  firstn 4 ics = firstn 4 ics' ->
  Std.forward_trace self ics lcs = Std.forward_trace self ics' lcs.
Proof.
  intros H. unfold Std.forward_trace.
  rewrite (list_getitem_prefix 4 3 ics ics'), (list_getitem_prefix 4 2 ics ics'),
    (list_getitem_prefix 4 1 ics ics'), (list_getitem_prefix 4 0 ics ics')
    by (assumption || lia).
  reflexivity.
Qed.

(** The frequency-domain variant reads the context entries 0 to 2 and no other. *)
Lemma dct_forward_trace_prefix (self : Dct.Sampler) (ics ics' : list Tensor)
    (latent : Tensor) :
  firstn 3 ics = firstn 3 ics' ->
  Dct.forward_trace self ics latent = Dct.forward_trace self ics' latent.
Proof.
  intros H. unfold Dct.forward_trace.
  rewrite (list_getitem_prefix 3 2 ics ics'), (list_getitem_prefix 3 1 ics ics'),
    (list_getitem_prefix 3 0 ics ics') by (assumption || lia).
  reflexivity.
Qed.

Lemma std_forward_short (self : Std.Sampler) (ics : list Tensor) (lcs : pyobj) (n : Z) :
  Std.forecast_steps self = PInt n ->
  (length ics < 4)%nat ->
  Std.forward self ics lcs = Raise IndexError.
Proof.
  intros Hn Hlen. unfold Std.forward, Std.forward_trace.
  destruct (getitem lcs 3) as [l3 | e] eqn:Hl3; cbn [bind].
  - rewrite Hn. cbn [as_int bind].
    rewrite (list_getitem_short ics 3) by lia. reflexivity.
  - now rewrite (getitem_raises _ _ _ Hl3).
Qed.

Lemma dct_forward_short (self : Dct.Sampler) (ics : list Tensor) (latent : Tensor)
    (n : Z) :
  Dct.forecast_steps self = PInt n ->
  (length ics < 3)%nat ->
  Dct.forward self ics latent = Raise IndexError
  \/ Dct.forward self ics latent = Raise (ShapeError "einops.repeat").
Proof.
  intros Hn Hlen.
  cut (forall r, Dct.forward_trace self ics latent = r ->
                 r = Raise IndexError \/ r = Raise (ShapeError "einops.repeat")).
  { intros C. unfold Dct.forward.
    destruct (C _ eq_refl) as [E | E]; rewrite E; [left | right]; reflexivity. }
  intros res Hr. unfold Dct.forward_trace in Hr.
  destruct (list_getitem ics 0) as [s0 | e] eqn:Hs0; cbn [bind] in Hr.
  - unfold shape0 in Hr. destruct (shape s0) as [| r rest]; cbn [bind] in Hr;
      [now left |].
    unfold einops_repeat in Hr.
    destruct (shape latent) as [| b [| c [| h [| w [| x rest']]]]]; cbn [bind] in Hr;
      try (now right).
    rewrite Hn in Hr. cbn [as_int bind] in Hr.
    rewrite (list_getitem_short ics 2) in Hr by lia. now left.
  - unfold list_getitem in Hs0. destruct (nth_error ics 0); [discriminate |].
    injection Hs0 as <-. now left.
Qed.
End ContextEntries.

(** ** Construction *)





(* ------------------------------------------------------------------ *)
(** * The forecast tensor *)









(* ------------------------------------------------------------------ *)
(** * The inputs of the recurrent layers *)




(* ------------------------------------------------------------------ *)
(** * The latent argument *)

Lemma std_rejects_single_tensor {N : Numerics} (self : Std.Sampler)
    (ics : list Tensor) (t : Tensor) (n c h w : Z) (tr : Std.trace) :
  shape t = [n; c; h; w] ->
  Std.forward_trace self ics (PTensor t) <> Ok tr.
Proof.
  intros Hs H.
  destruct (std_trace_inv self ics (PTensor t) tr H)
    as (k & l3 & _ & Hpos & Hl3 & H4 & _ & _ & _ & _ & _ & _ & s3 & hs & _ & Hgru).
  cbn [getitem] in Hl3. unfold tensor_getitem in Hl3. rewrite Hs in Hl3.
  destruct (Z.of_nat 3 <? n); [injection Hl3 as <- | discriminate Hl3].
  rewrite H4 in Hgru. unfold list_mul in Hgru.
  destruct (Z.to_nat k) as [| k'] eqn:Hk; [lia |].
  cbn [repeat ConvGRU_forward] in Hgru. bind_inv Hgru.
  unfold ConvGRUCell_forward in Hstep. cbn [shape] in Hstep. discriminate Hstep.
Qed.

Lemma first_of_nonempty {A : Type} (xs : list A) (n : Z) :
  0 < n -> length xs = Z.to_nat n -> exists x, nth_error xs 0 = Some x.
Proof.
  intros Hn Hlen. destruct xs as [| x xs]; [simpl in Hlen; lia |].
  exists x. reflexivity.
Qed.

(** C4, as the code has it.  Standard variant: the latent argument is
    indexed at positions 0 to 3 like a list aligned with the context
    scales; entry 3 is broadcast across the forecast horizon with no batch
    repetition, and a single 4-dimensional tensor is never accepted.
    Frequency-domain variant: the latent argument is a single
    4-dimensional tensor whose batch dimension is multiplied, by
    repetition, by the batch size of the first context tensor, so that one
    shared latent sample reaches the context batch size, and the repeated
    tensor is broadcast across the forecast horizon. *)
Theorem latent_argument {N : Numerics}
    (self : Std.Sampler) (ics : list Tensor) (lcs : pyobj) (tr : Std.trace)
    (selfd : Dct.Sampler) (conditioning_states : list Tensor) (latent_dim : Tensor)
    (trd : Dct.trace) :
  (Std.forward_trace self ics lcs = Ok tr ->
   exists n l0 l1 l2 l3,
     Std.forecast_steps self = PInt n
     /\ getitem lcs 0 = Ok l0 /\ getitem lcs 1 = Ok l1
     /\ getitem lcs 2 = Ok l2 /\ getitem lcs 3 = Ok l3
     /\ Std.inputs_layer4 tr = repeat l3 (Z.to_nat n)
     /\ forall t b c h w, lcs = PTensor t -> shape t <> [b; c; h; w])
  /\ (Dct.forward_trace selfd conditioning_states latent_dim = Ok trd ->
      exists n s0 r lb c h w z,
        Dct.forecast_steps selfd = PInt n
        /\ list_getitem conditioning_states 0 = Ok s0 /\ shape0 s0 = Ok r
        /\ shape latent_dim = [lb; c; h; w]
        /\ einops_repeat latent_dim r = Ok z
        /\ shape z = [r * lb; c; h; w]
        /\ (lb = 1 -> shape z = [r; c; h; w])
        /\ Dct.inputs_layer4 trd = repeat z (Z.to_nat n)).
Proof.
  split; intros H.
  - destruct (std_trace_inv self ics lcs tr H)
      as (n & l3 & Hn & Hpos & Hl3 & H4 & L4 & C3 & L3 & C2 & L2 & C1 & _).
    destruct (cat_latent_inv _ _ _ _ _ C3) as [K3 I3].
    destruct (cat_latent_inv _ _ _ _ _ C2) as [K2 I2].
    destruct (cat_latent_inv _ _ _ _ _ C1) as [K1 I1].
    destruct (first_of_nonempty _ n Hpos K3) as [x3 Hx3].
    destruct (first_of_nonempty _ n Hpos K2) as [x2 Hx2].
    destruct (first_of_nonempty _ n Hpos K1) as [x1 Hx1].
    destruct (I3 0%nat x3 Hx3) as (l2 & _ & Hl2 & _).
    destruct (I2 0%nat x2 Hx2) as (l1 & _ & Hl1 & _).
    destruct (I1 0%nat x1 Hx1) as (l0 & _ & Hl0 & _).
    exists n, l0, l1, l2, l3. repeat split; try assumption.
    intros t b c h w -> Hs.
    exact (std_rejects_single_tensor self ics t b c h w tr Hs H).
  - destruct (dct_trace_inv selfd conditioning_states latent_dim trd H)
      as (n & s0 & r & z & Hn & _ & Hs0 & Hr & Hz & H4 & _).
    unfold einops_repeat in Hz.
    destruct (shape latent_dim) as [| lb [| c [| h [| w [| x rest]]]]] eqn:Hs;
      try discriminate Hz.
    injection Hz as <-.
    exists n, s0, r, lb, c, h, w.
    eexists. repeat split; try eassumption; try reflexivity.
    + unfold einops_repeat. rewrite Hs. reflexivity.
    + intros ->. cbn [shape]. now rewrite Z.mul_1_r.
Qed.

Lemma latent_argument_witness :
  (exists tr, Std.forward_trace SmallStd.sampler SmallStd.ics SmallStd.lcs = Ok tr
              /\ Std.inputs_layer4 tr = [SmallStd.l3; SmallStd.l3])
  /\ (exists trd z, Dct.forward_trace SmallDct.sampler
                      [SmallDct.c0; SmallDct.c1; SmallDct.c2] SmallDct.latent = Ok trd
                    /\ einops_repeat SmallDct.latent 2 = Ok z
                    /\ shape z = [2; 16; 2; 2]
                    /\ Dct.inputs_layer4 trd = [z; z]).
Proof.
  destruct (Std.forward_trace SmallStd.sampler SmallStd.ics SmallStd.lcs)
    as [tr | e] eqn:Es; [| discriminate Es].
  destruct (Dct.forward_trace SmallDct.sampler
              [SmallDct.c0; SmallDct.c1; SmallDct.c2] SmallDct.latent)
    as [trd | e] eqn:Ed; [| discriminate Ed].
  destruct (latent_argument SmallStd.sampler SmallStd.ics SmallStd.lcs tr
              SmallDct.sampler [SmallDct.c0; SmallDct.c1; SmallDct.c2]
              SmallDct.latent trd) as [Hstd Hdct].
  split.
  - destruct (Hstd Es) as (n & l0 & l1 & l2 & l3 & Hn & _ & _ & _ & Hl3 & H4 & _).
    injection Hn as <-. injection Hl3 as <-.
    exists tr. split; [reflexivity | exact H4].
  - destruct (Hdct Ed) as (n & s0 & r & lb & c & h & w & z & Hn & Hs0 & Hr & Hs & Hz & _ & Hz1 & H4).
    injection Hn as <-. injection Hs0 as <-. injection Hr as <-.
    injection Hs as <- <- <- <-.
    exists trd, z. repeat split; try assumption. exact (Hz1 eq_refl).
Defined.

(** C4 as the specification states it fails in the standard variant: a
    single latent tensor is rejected, whether it holds one sample or four,
    and a list of latent tensors for one sample is not repeated to match a
    context batch of two; the call only succeeds on a list of four latent
    tensors whose batch size is already that of the context.  The
    frequency-domain variant is the one that takes a single tensor. *)
Lemma std_latent_is_a_list_and_is_not_repeated :
  Std.forward SmallStd.sampler SmallStd.ics SmallStd.single = Raise IndexError
  /\ Std.forward SmallStd.sampler SmallStd.ics SmallStd.single4
     = Raise (ShapeError "ConvGRU")
  /\ Std.forward SmallStd.sampler SmallStd.ics_batch2 SmallStd.lcs
     = Raise (ShapeError "ConvGRU")
  /\ is_ok (Std.forward SmallStd.sampler SmallStd.ics SmallStd.lcs) = true
  /\ is_ok (Dct.forward SmallDct.sampler
              [SmallDct.c0; SmallDct.c1; SmallDct.c2; SmallDct.c3]
              SmallDct.latent) = true.
Proof.
  repeat split; vm_compute; reflexivity.
Qed.

(* ------------------------------------------------------------------ *)
(** * The context list *)

(** C6, as the code has it: a context list of fewer than four entries
    (standard variant) or fewer than three (frequency-domain variant)
    makes [Sampler.forward] fail with an indexing or shape error; entries
    beyond the fourth (respectively the third) are never read, so that a
    longer list gives what its first four (three) entries give. *)
Theorem context_list_length {N : Numerics}
    (self : Std.Sampler) (selfd : Dct.Sampler) (n nd : Z)
    (short ics ics' : list Tensor) (lcs : pyobj) (latent_dim : Tensor) :
  (Std.forecast_steps self = PInt n -> (length short < 4)%nat ->
   Std.forward self short lcs = Raise IndexError)
  /\ (firstn 4 ics = firstn 4 ics' ->
      Std.forward self ics lcs = Std.forward self ics' lcs)
  /\ (Dct.forecast_steps selfd = PInt nd -> (length short < 3)%nat ->
      Dct.forward selfd short latent_dim = Raise IndexError
      \/ Dct.forward selfd short latent_dim = Raise (ShapeError "einops.repeat"))
  /\ (firstn 3 ics = firstn 3 ics' ->
      Dct.forward selfd ics latent_dim = Dct.forward selfd ics' latent_dim).
Proof.
  repeat split.
  - intros Hn Hlen. exact (std_forward_short self short lcs n Hn Hlen).
  - intros H. unfold Std.forward. now rewrite (std_forward_trace_prefix self ics ics' lcs H).
  - intros Hn Hlen. exact (dct_forward_short selfd short latent_dim nd Hn Hlen).
  - intros H. unfold Dct.forward.
    now rewrite (dct_forward_trace_prefix selfd ics ics' latent_dim H).
Qed.

Lemma context_list_length_witness :
  Std.forward SmallStd.sampler [SmallStd.c0; SmallStd.c1] SmallStd.lcs = Raise IndexError
  /\ Std.forward SmallStd.sampler
       [SmallStd.c0; SmallStd.c1; SmallStd.c2; SmallStd.c3; SmallStd.c0] SmallStd.lcs
     = Std.forward SmallStd.sampler SmallStd.ics SmallStd.lcs
  /\ (Dct.forward SmallDct.sampler [SmallStd.c0; SmallStd.c1] SmallDct.latent
      = Raise IndexError
      \/ Dct.forward SmallDct.sampler [SmallStd.c0; SmallStd.c1] SmallDct.latent
         = Raise (ShapeError "einops.repeat")).
Proof.
  destruct (context_list_length SmallStd.sampler SmallDct.sampler 2 2
              [SmallStd.c0; SmallStd.c1]
              [SmallStd.c0; SmallStd.c1; SmallStd.c2; SmallStd.c3; SmallStd.c0]
              SmallStd.ics SmallStd.lcs SmallDct.latent)
    as (Hshort & Hlong & Hshortd & _).
  split; [| split].
  - apply Hshort; [reflexivity | simpl; lia].
  - apply Hlong. reflexivity.
  - apply Hshortd; [reflexivity | simpl; lia].
Defined.

(** C6 as the specification states it fails: the standard variant returns
    a forecast for a context list of five entries, and the
    frequency-domain variant for one of three. *)
Lemma other_context_lengths_are_accepted :
  (length [SmallStd.c0; SmallStd.c1; SmallStd.c2; SmallStd.c3; SmallStd.c0] = 5%nat
   /\ exists t, Std.forward SmallStd.sampler
                  [SmallStd.c0; SmallStd.c1; SmallStd.c2; SmallStd.c3; SmallStd.c0]
                  SmallStd.lcs = Ok t)
  /\ (length [SmallDct.c0; SmallDct.c1; SmallDct.c2] = 3%nat
      /\ exists t, Dct.forward SmallDct.sampler
                     [SmallDct.c0; SmallDct.c1; SmallDct.c2] SmallDct.latent = Ok t).
Proof.
  split; (split; [reflexivity | eexists; vm_compute; reflexivity]).
Qed.



(* ------------------------------------------------------------------ *)
(** * The configuration record *)


(* ------------------------------------------------------------------ *)
(** * Further properties of the two modules *)

(** ** What a layer that returned was given *)

Section Inversion.
Context {N : Numerics}.

Lemma all_shape_unique (s s' : list Z) (ts : list Tensor) :
  ts <> [] -> all_shape s ts -> all_shape s' ts -> s = s'.
Proof.
  intros Hne H H'. destruct ts as [| t ts]; [congruence |].
  inversion H; inversion H'; subst. congruence.
Qed.

Lemma shape4_inj (n c h w n' c' h' w' : Z) :
  [n; c; h; w] = [n'; c'; h'; w'] -> n = n' /\ c = c' /\ h = h' /\ w = w'.
Proof. intros H. injection H as -> -> -> ->. repeat split. Qed.

Lemma list_mul_nonempty {A : Type} (x : A) (n : Z) :
  0 < n -> list_mul x n <> [].
Proof.
  intros Hn. unfold list_mul. destruct (Z.to_nat n) eqn:E; [lia | discriminate].
Qed.

Lemma nonempty_length {A : Type} (xs : list A) :
  (0 < length xs)%nat -> xs <> [].
Proof. destruct xs; simpl; [lia | discriminate]. Qed.

Lemma ConvGRUCell_inv (l : ConvGRU) (x p u : Tensor) :
  ConvGRUCell_forward l x p = Ok u ->
  exists n cx h w,
    shape x = [n; cx; h; w]
    /\ shape p = [n; gru_output_channels l; h; w]
    /\ cx + gru_output_channels l = gru_input_channels l
    /\ shape u = [n; gru_output_channels l; h; w].
Proof.
  unfold ConvGRUCell_forward. intros H.
  destruct (shape x) as [| n [| cx [| h [| w [| ? ?]]]]]; try discriminate H.
  destruct (shape p) as [| n' [| ch [| h' [| w' [| ? ?]]]]]; try discriminate H.
  destruct ((n =? n') && (h =? h') && (w =? w')
            && (cx + ch =? gru_input_channels l) && (ch =? gru_output_channels l))
    eqn:E; [| discriminate H].
  rewrite !andb_true_iff, !Z.eqb_eq in E.
  destruct E as [[[[-> ->] ->] Hin] ->].
  injection H as <-. exists n', cx, h', w'. repeat split; assumption.
Qed.

(** A recurrence that returned on a non-empty sequence fixes the shape of
    its initial state, of every input and of every hidden state. *)
Lemma ConvGRU_inv (l : ConvGRU) (xs hs : list Tensor) :
  xs <> [] ->
  forall h0, ConvGRU_forward l xs h0 = Ok hs ->
  exists n cx h w,
    cx + gru_output_channels l = gru_input_channels l
    /\ shape h0 = [n; gru_output_channels l; h; w]
    /\ all_shape [n; cx; h; w] xs
    /\ all_shape [n; gru_output_channels l; h; w] hs.
Proof.
  revert hs. induction xs as [| x xs IH]; intros hs Hne h0 H; [congruence |].
  cbn [ConvGRU_forward] in H. bind_inv H. bind_inv H. injection H as <-.
  destruct (ConvGRUCell_inv l x h0 a Hstep) as (n & cx & h & w & Hx & Hp & Hc & Hu).
  exists n, cx, h, w. split; [exact Hc |]. split; [exact Hp |].
  destruct xs as [| x' xs'].
  - cbn [ConvGRU_forward] in Hstep0. injection Hstep0 as <-.
    split; repeat constructor; assumption.
  - destruct (IH a0 ltac:(discriminate) a Hstep0)
      as (n' & cx' & h' & w' & Hc' & Hp' & Hxs & Hhs).
    rewrite Hu in Hp'. injection Hp' as <- <- <-.
    assert (cx' = cx) by lia. subst cx'.
    split; constructor; assumption.
Qed.

Lemma torch_cat_inv (a b u : Tensor) :
  torch_cat a b = Ok u ->
  exists n c1 c2 r,
    shape a = n :: c1 :: r /\ shape b = n :: c2 :: r
    /\ shape u = n :: c1 + c2 :: r.
Proof.
  unfold torch_cat. intros H.
  destruct (shape a) as [| n1 [| c1 r1]]; try discriminate H.
  destruct (shape b) as [| n2 [| c2 r2]]; try discriminate H.
  destruct ((n1 =? n2) && shape_eqb r1 r2) eqn:E; [| discriminate H].
  rewrite andb_true_iff, Z.eqb_eq, shape_eqb_eq in E. destruct E as [-> ->].
  injection H as <-. exists n2, c1, c2, r2. repeat split.
Qed.

(** The input sequence of a later layer of the standard variant, when it
    could be built over hidden states of one shape: the latent entry has
    that batch and spatial size, and the inputs have one shape. *)
Lemma cat_latent_shape_inv (latent_dim : pyobj) (k : nat) (hs xs : list Tensor)
    (fs n ch h w : Z) :
  0 < fs ->
  Std.cat_latent latent_dim k hs fs = Ok xs ->
  all_shape [n; ch; h; w] hs ->
  exists l cl,
    getitem latent_dim k = Ok l
    /\ shape l = [n; cl; h; w]
    /\ length xs = Z.to_nat fs
    /\ all_shape [n; cl + ch; h; w] xs.
Proof.
  intros Hfs H Hall.
  destruct (cat_latent_inv _ _ _ _ _ H) as [Hlen Hcat].
  destruct xs as [| x0 xs']; [simpl in Hlen; lia |].
  destruct (Hcat 0%nat x0 eq_refl) as (l & h0 & Hl & Hh0 & Hc0).
  destruct (torch_cat_inv _ _ _ Hc0) as (n0 & c1 & c2 & r & Hsl & Hsh & _).
  assert (Hh0s : shape h0 = [n; ch; h; w]).
  { unfold all_shape in Hall. rewrite Forall_forall in Hall.
    apply Hall. eapply nth_error_In; eassumption. }
  rewrite Hh0s in Hsh. injection Hsh as <- <- <-.
  exists l, c1. repeat split; try assumption.
  unfold all_shape. rewrite Forall_forall. intros x Hx.
  destruct (In_nth_error _ _ Hx) as [i Hi].
  destruct (Hcat i x Hi) as (l' & h' & Hl' & Hh' & Hc').
  rewrite Hl in Hl'. injection Hl' as <-.
  assert (Hh's : shape h' = [n; ch; h; w]).
  { unfold all_shape in Hall. rewrite Forall_forall in Hall.
    apply Hall. eapply nth_error_In; eassumption. }
  destruct (torch_cat_shape n c1 ch h w l h' Hsl Hh's) as (u & Hu & Hus).
  congruence.
Qed.

(** A scale of the decoder that returned on a non-empty sequence: the
    shapes of its inputs and of its initial state, and of what it returns. *)
Lemma refine_inv (gru : ConvGRU) (conv : Conv2d) (g : GBlock)
    (xs a1 a2 hs : list Tensor) (h0 : Tensor) :
  conv_in_channels conv = gru_output_channels gru ->
  g_input_channels g = conv_out_channels conv ->
  xs <> [] ->
  ConvGRU_forward gru xs h0 = Ok a1 ->
  mapM (Conv2d_forward conv) a1 = Ok a2 ->
  mapM (GBlock_forward g) a2 = Ok hs ->
  exists n cx h w,
    cx + gru_output_channels gru = gru_input_channels gru
    /\ shape h0 = [n; gru_output_channels gru; h; w]
    /\ all_shape [n; cx; h; w] xs
    /\ length hs = length xs
    /\ all_shape [n; g_output_channels g; h; w] hs.
Proof.
  intros Hconv Hg Hne E1 E2 E3.
  destruct (ConvGRU_inv gru xs a1 Hne h0 E1) as (n & cx & h & w & Hc & Hh0 & Hxs & _).
  destruct (refine_shape gru conv g n cx h w xs h0 Hc Hconv Hg Hxs Hh0)
    as (b1 & b2 & b3 & F1 & F2 & F3 & L & A).
  assert (b1 = a1) by congruence. subst b1.
  assert (b2 = a2) by congruence. subst b2.
  assert (b3 = hs) by congruence. subst b3.
  exists n, cx, h, w. repeat split; assumption.
Qed.

Lemma scale_inv (gru : ConvGRU) (conv : Conv2d) (g : GBlock) (up : UpsampleGBlock)
    (xs a1 a2 a3 hs : list Tensor) (h0 : Tensor) :
  conv_in_channels conv = gru_output_channels gru ->
  g_input_channels g = conv_out_channels conv ->
  up_input_channels up = g_output_channels g ->
  xs <> [] ->
  ConvGRU_forward gru xs h0 = Ok a1 ->
  mapM (Conv2d_forward conv) a1 = Ok a2 ->
  mapM (GBlock_forward g) a2 = Ok a3 ->
  mapM (UpsampleGBlock_forward up) a3 = Ok hs ->
  exists n cx h w,
    cx + gru_output_channels gru = gru_input_channels gru
    /\ shape h0 = [n; gru_output_channels gru; h; w]
    /\ all_shape [n; cx; h; w] xs
    /\ length hs = length xs
    /\ all_shape [n; up_output_channels up; 2 * h; 2 * w] hs.
Proof.
  intros Hconv Hg Hup Hne E1 E2 E3 E4.
  destruct (ConvGRU_inv gru xs a1 Hne h0 E1) as (n & cx & h & w & Hc & Hh0 & Hxs & _).
  destruct (scale_shape gru conv g up n cx h w xs h0 Hc Hconv Hg Hup Hxs Hh0)
    as (b1 & b2 & b3 & b4 & F1 & F2 & F3 & F4 & L & A).
  assert (b1 = a1) by congruence. subst b1.
  assert (b2 = a2) by congruence. subst b2.
  assert (b3 = a3) by congruence. subst b3.
  assert (b4 = hs) by congruence. subst b4.
  exists n, cx, h, w. repeat split; assumption.
Qed.
End Inversion.

(** ** Exactly which calls of [Sampler.forward] return *)

Section Acceptance.
Context {N : Numerics}.

(** The standard forward pass sees its arguments through the context
    entries 0 to 3 and the latent entries 0 to 3 only. *)
Lemma std_forward_trace_reads (self : Std.Sampler) (ics : list Tensor) (lcs : pyobj)
    (c0 c1 c2 c3 l0 l1 l2 l3 : Tensor) :
  list_getitem ics 0 = Ok c0 -> list_getitem ics 1 = Ok c1 ->
  list_getitem ics 2 = Ok c2 -> list_getitem ics 3 = Ok c3 ->
  getitem lcs 0 = Ok l0 -> getitem lcs 1 = Ok l1 ->
  getitem lcs 2 = Ok l2 -> getitem lcs 3 = Ok l3 ->
  Std.forward_trace self ics lcs
  = Std.forward_trace self [c0; c1; c2; c3] (PList [l0; l1; l2; l3]).
Proof.
  intros C0 C1 C2 C3 L0 L1 L2 L3.
  unfold Std.forward_trace, Std.cat_latent.
  rewrite C0, C1, C2, C3, L0, L1, L2, L3.
  reflexivity.
Qed.

Lemma dct_forward_trace_reads (self : Dct.Sampler) (ics : list Tensor)
    (latent : Tensor) (c0 c1 c2 : Tensor) :
  list_getitem ics 0 = Ok c0 -> list_getitem ics 1 = Ok c1 ->
  list_getitem ics 2 = Ok c2 ->
  Dct.forward_trace self ics latent = Dct.forward_trace self [c0; c1; c2] latent.
Proof.
  intros C0 C1 C2. unfold Dct.forward_trace.
  rewrite C0, C1, C2. reflexivity.
Qed.

Lemma shape_of_repeated (x : Tensor) (n : Z) (s : list Z) :
  0 < n -> all_shape s (list_mul x n) -> shape x = s.
Proof.
  intros Hn H. unfold list_mul in H.
  destruct (Z.to_nat n) eqn:E; [lia |]. simpl in H. now inversion H.
Qed.

Ltac widths_in_hyps :=
  cbn [Std.build Std.convGRU1 Std.gru_conv_1x1 Std.g1 Std.up_g1
       Std.convGRU2 Std.gru_conv_1x1_2 Std.g2 Std.up_g2
       Std.convGRU3 Std.gru_conv_1x1_3 Std.g3 Std.up_g3
       Std.convGRU4 Std.gru_conv_1x1_4 Std.g4 Std.up_g4
       Std.bn Std.conv_1x1
       Dct.build Dct.convGRU1 Dct.gru_conv_1x1 Dct.g1 Dct.up_g1
       Dct.convGRU2 Dct.gru_conv_1x1_2 Dct.g2 Dct.up_g2
       Dct.convGRU3 Dct.gru_conv_1x1_3 Dct.g3 Dct.bn Dct.conv_1x1
       gru_input_channels gru_output_channels conv_in_channels
       conv_out_channels g_input_channels g_output_channels
       up_input_channels up_output_channels num_features] in *.

Ltac shape_from_hyp :=
  match goal with
  | H : shape ?t = _ |- shape ?t = _ =>
      rewrite H; repeat (apply (f_equal2 (@cons Z)); [lia |]); reflexivity
  end.

Ltac same_shape Ne A B :=
  let E := fresh "E" in
  pose proof (shape4_inj _ _ _ _ _ _ _ _ (all_shape_unique _ _ _ Ne A B)) as E;
  destruct E as (? & ? & ? & ?); subst.

(** A standard forward pass that returned was given a positive horizon
    and well-shaped inputs, and its forecast has the shape they fix. *)
Lemma std_forward_trace_needs (cfg fsv : pyval) (lc cc oc : Z)
    (ics : list Tensor) (lcs : pyobj) (tr : Std.trace) :
  Std.forward_trace (Std.build cfg fsv lc cc oc) ics lcs = Ok tr ->
  exists fs b h w c0 c1 c2 c3 l0 l1 l2 l3,
    fsv = PInt fs /\ 0 < fs
    /\ list_getitem ics 0 = Ok c0 /\ list_getitem ics 1 = Ok c1
    /\ list_getitem ics 2 = Ok c2 /\ list_getitem ics 3 = Ok c3
    /\ getitem lcs 0 = Ok l0 /\ getitem lcs 1 = Ok l1
    /\ getitem lcs 2 = Ok l2 /\ getitem lcs 3 = Ok l3
    /\ std_well_shaped lc cc b h w c0 c1 c2 c3 l0 l1 l2 l3 = true
    /\ shape (Std.forecasts tr) = [b; fs; oc; 32 * h; 32 * w].
Proof.
  intros H. pose proof H as H0.
  destruct (std_trace_inv _ _ _ _ H) as (fs & l3 & Hfs & Hpos & _).
  cbn [Std.forecast_steps Std.build] in Hfs. subst fsv.
  unfold Std.forward_trace in H. repeat bind_inv H. clear H.
  cbn [Std.forecast_steps Std.build as_int] in *.
  match goal with E : Ok fs = Ok _ |- _ => injection E as <- end.
  (* Layer 4 *)
  destruct ((fun A B C => scale_inv _ _ _ _ _ _ _ _ _ _ A B C
              (list_mul_nonempty a fs Hpos) Hstep2 Hstep3 Hstep4 Hstep5) eq_refl eq_refl eq_refl)
    as (n & cx1 & h & w & Hc1 & Hs3 & Hx1 & Len1 & A1).
  widths_in_hyps.
  apply (shape_of_repeated _ _ _ Hpos) in Hx1.
  rewrite list_mul_length in Len1.
  (* Layer 3 *)
  destruct (cat_latent_shape_inv lcs 2 a5 a6 fs _ _ _ _ Hpos Hstep6 A1)
    as (l2 & cl2 & Hl2 & Hsl2 & Len6 & A6).
  assert (Ne_a6 : a6 <> []) by (apply nonempty_length; lia).
  destruct ((fun A B C => scale_inv _ _ _ _ _ _ _ _ _ _ A B C
              Ne_a6 Hstep8 Hstep9 Hstep10 Hstep11) eq_refl eq_refl eq_refl)
    as (n2 & cx2 & h2 & w2 & Hc2 & Hs2 & Hx2 & Len2 & A2).
  widths_in_hyps. same_shape Ne_a6 A6 Hx2.
  (* Layer 2 *)
  destruct (cat_latent_shape_inv lcs 1 a11 a12 fs _ _ _ _ Hpos Hstep12 A2)
    as (l1 & cl1 & Hl1 & Hsl1 & Len12 & A12).
  assert (Ne_a12 : a12 <> []) by (apply nonempty_length; lia).
  destruct ((fun A B C => scale_inv _ _ _ _ _ _ _ _ _ _ A B C
              Ne_a12 Hstep14 Hstep15 Hstep16 Hstep17) eq_refl eq_refl eq_refl)
    as (n3 & cx3 & h3 & w3 & Hc3 & Hs1 & Hx3 & Len3 & A3).
  widths_in_hyps. same_shape Ne_a12 A12 Hx3.
  (* Layer 1 *)
  destruct (cat_latent_shape_inv lcs 0 a17 a18 fs _ _ _ _ Hpos Hstep18 A3)
    as (l0 & cl0 & Hl0 & Hsl0 & Len18 & A18).
  assert (Ne_a18 : a18 <> []) by (apply nonempty_length; lia).
  destruct ((fun A B C => scale_inv _ _ _ _ _ _ _ _ _ _ A B C
              Ne_a18 Hstep20 Hstep21 Hstep22 Hstep23) eq_refl eq_refl eq_refl)
    as (n4 & cx4 & h4 & w4 & Hc4 & Hs0 & Hx4 & Len4 & A4).
  widths_in_hyps. same_shape Ne_a18 A18 Hx4.
  exists fs, n4, h, w, a19, a13, a7, a1, l0, l1, l2, a.
  assert (Hws : std_well_shaped lc cc n4 h w a19 a13 a7 a1 l0 l1 l2 a = true).
  { unfold std_well_shaped. rewrite !andb_true_iff, !shape_eqb_eq.
    repeat split; shape_from_hyp. }
  destruct (std_forward_trace_ok cfg fs lc cc oc n4 h w _ _ _ _ _ _ _ _ Hpos Hws)
    as (tr' & E' & Hs').
  rewrite (std_forward_trace_reads _ ics lcs a19 a13 a7 a1 l0 l1 l2 a) in H0
    by assumption.
  assert (tr' = tr) by congruence. subst tr'.
  repeat split; assumption.
Qed.

(** A frequency-domain forward pass that returned was given a positive
    horizon and well-shaped inputs, and its forecast has the shape they
    fix. *)
Lemma dct_forward_trace_needs (cfg fsv : pyval) (lc cc oc : Z)
    (ics : list Tensor) (latent : Tensor) (tr : Dct.trace) :
  Dct.forward_trace (Dct.build cfg fsv lc cc oc) ics latent = Ok tr ->
  exists fs b lb h w c0 c1 c2,
    fsv = PInt fs /\ 0 < fs
    /\ list_getitem ics 0 = Ok c0 /\ list_getitem ics 1 = Ok c1
    /\ list_getitem ics 2 = Ok c2
    /\ dct_well_shaped lc cc b lb h w c0 c1 c2 latent = true
    /\ shape (Dct.forecasts tr) = [b; fs; oc / 4; 4 * h; 4 * w].
Proof.
  intros H. pose proof H as H0.
  destruct (dct_trace_inv _ _ _ _ H) as (fs & s0 & r & z & Hfs & Hpos & _).
  cbn [Dct.forecast_steps Dct.build] in Hfs. subst fsv.
  unfold Dct.forward_trace in H. repeat bind_inv H. clear H.
  cbn [Dct.forecast_steps Dct.build as_int] in *.
  match goal with E : Ok fs = Ok _ |- _ => injection E as <- end.
  assert (a13 = a) by congruence. subst a13.
  unfold shape0 in Hstep0.
  destruct (shape a) as [| r0 rest0] eqn:Hsa; [discriminate Hstep0 |].
  injection Hstep0 as ->.
  unfold einops_repeat in Hstep1.
  destruct (shape latent) as [| lb [| c [| h [| w [| ? ?]]]]] eqn:Hlat;
    try discriminate Hstep1.
  injection Hstep1 as <-.
  (* Layer 4 *)
  destruct ((fun A B C => scale_inv _ _ _ _ _ _ _ _ _ _ A B C
              (list_mul_nonempty _ fs Hpos) Hstep4 Hstep5 Hstep6 Hstep7)
              eq_refl eq_refl eq_refl)
    as (n & cx1 & h1 & w1 & Hc1 & Hs2 & Hx1 & Len1 & A1).
  widths_in_hyps.
  apply (shape_of_repeated _ _ _ Hpos) in Hx1. cbn [shape] in Hx1.
  apply shape4_inj in Hx1. destruct Hx1 as (? & ? & ? & ?); subst.
  rewrite list_mul_length in Len1.
  (* Layer 3 *)
  assert (Ne_a7 : a7 <> []) by (apply nonempty_length; lia).
  destruct ((fun A B C => scale_inv _ _ _ _ _ _ _ _ _ _ A B C
              Ne_a7 Hstep9 Hstep10 Hstep11 Hstep12) eq_refl eq_refl eq_refl)
    as (n2 & cx2 & h2 & w2 & Hc2 & Hs1 & Hx2 & Len2 & A2).
  widths_in_hyps. same_shape Ne_a7 A1 Hx2.
  (* Layer 2 *)
  assert (Ne_a12 : a12 <> []) by (apply nonempty_length; lia).
  destruct ((fun A B => refine_inv _ _ _ _ _ _ _ _ A B
              Ne_a12 Hstep14 Hstep15 Hstep16) eq_refl eq_refl)
    as (n3 & cx3 & h3 & w3 & Hc3 & Hs0 & Hx3 & Len3 & A3).
  widths_in_hyps. same_shape Ne_a12 A2 Hx3.
  match goal with
    Hb : shape a = ?b :: _, Hlb : shape latent = [?lb; _; ?h; ?w] |- _ =>
      rewrite Hs0 in Hb; injection Hb as Hbatch _;
      exists fs, b, lb, h, w, a, a8, a3;
      assert (Hws : dct_well_shaped lc cc b lb h w a a8 a3 latent = true)
        by (unfold dct_well_shaped;
            rewrite !andb_true_iff, !shape_eqb_eq, Z.eqb_eq;
            repeat split; first [ shape_from_hyp | lia ]);
      destruct (dct_forward_trace_ok cfg fs lc cc oc b lb h w _ _ _ _ []
                  Hpos Hws) as (tr' & E' & Hs')
  end.
  rewrite (dct_forward_trace_reads _ ics latent a a8 a3) in H0 by assumption.
  assert (tr' = tr) by congruence. subst tr'.
  repeat split; assumption.
Qed.
End Acceptance.

Lemma std_forward_ok_trace {N : Numerics} (self : Std.Sampler) (ics : list Tensor)
    (lcs : pyobj) (t : Tensor) :
  Std.forward self ics lcs = Ok t <->
  exists tr, Std.forward_trace self ics lcs = Ok tr /\ Std.forecasts tr = t.
Proof.
  unfold Std.forward. split.
  - intros H. bind_inv H. injection H as <-. eauto.
  - intros (tr & -> & <-). reflexivity.
Qed.

Lemma dct_forward_ok_trace {N : Numerics} (self : Dct.Sampler) (ics : list Tensor)
    (latent : Tensor) (t : Tensor) :
  Dct.forward self ics latent = Ok t <->
  exists tr, Dct.forward_trace self ics latent = Ok tr /\ Dct.forecasts tr = t.
Proof.
  unfold Dct.forward. split.
  - intros H. bind_inv H. injection H as <-. eauto.
  - intros (tr & -> & <-). reflexivity.
Qed.


(** X2: whenever the standard [Sampler.forward] returns, with no
    assumption on its arguments, the forecast has shape
    (b, forecast_steps, output_channels, 32 h, 32 w), where (b, _, h, w)
    is the shape of the context entry 3. *)
Theorem std_forward_result_shape {N : Numerics} (cfg fsv : pyval) (lc cc oc : Z)
    (ics : list Tensor) (lcs : pyobj) (t : Tensor) :
  Std.forward (Std.build cfg fsv lc cc oc) ics lcs = Ok t ->
  exists fs b h w c3,
    fsv = PInt fs
    /\ list_getitem ics 3 = Ok c3 /\ shape c3 = [b; cc; h; w]
    /\ shape t = [b; fs; oc; 32 * h; 32 * w].
Proof.
  intros H. apply std_forward_ok_trace in H. destruct H as (tr & H & <-).
  destruct (std_forward_trace_needs _ _ _ _ _ _ _ _ H)
    as (fs & b & h & w & c0 & c1 & c2 & c3 & l0 & l1 & l2 & l3
        & Hfs & _ & _ & _ & _ & C3 & _ & _ & _ & _ & Hws & Hs).
  apply std_well_shaped_inv in Hws.
  exists fs, b, h, w, c3. repeat split; try assumption. apply Hws.
Qed.

Lemma std_forward_result_shape_witness :
  exists t, Std.forward SmallStd.sampler SmallStd.ics SmallStd.lcs = Ok t
            /\ shape t = [1; 2; 8; 32; 32].
Proof.
  destruct (Std.forward SmallStd.sampler SmallStd.ics SmallStd.lcs)
    as [t | e] eqn:E; [| discriminate E].
  destruct (std_forward_result_shape (init_locals 2 16 8 8 []) (PInt 2) 16 8 8
              SmallStd.ics SmallStd.lcs t E)
    as (fs & b & h & w & c3 & Hfs & C3 & Hc3 & Hs).
  injection Hfs as <-. injection C3 as <-.
  apply shape4_inj in Hc3. destruct Hc3 as (<- & _ & <- & <-).
  exists t. split; [reflexivity | exact Hs].
Defined.


(** X4: whenever the frequency-domain [Sampler.forward] returns, the
    forecast has the batch size and the spatial size of the context
    entry 0, the largest one: its shape is
    (b, forecast_steps, output_channels // 4, H, W) for an entry 0 of
    shape (b, context_channels // 4, H, W), and H, W are 4 times the
    spatial size of the context entry 2. *)
Theorem dct_forward_result_shape {N : Numerics} (cfg fsv : pyval) (lc cc oc : Z)
    (ics : list Tensor) (latent : Tensor) (t : Tensor) :
  Dct.forward (Dct.build cfg fsv lc cc oc) ics latent = Ok t ->
  exists fs b h w c0 c2,
    fsv = PInt fs
    /\ list_getitem ics 0 = Ok c0 /\ shape c0 = [b; cc / 4; 4 * h; 4 * w]
    /\ list_getitem ics 2 = Ok c2 /\ shape c2 = [b; cc; h; w]
    /\ shape t = [b; fs; oc / 4; 4 * h; 4 * w].
Proof.
  intros H. apply dct_forward_ok_trace in H. destruct H as (tr & H & <-).
  destruct (dct_forward_trace_needs _ _ _ _ _ _ _ _ H)
    as (fs & b & lb & h & w & c0 & c1 & c2 & Hfs & _ & C0 & _ & C2 & Hws & Hs).
  apply dct_well_shaped_inv in Hws.
  exists fs, b, h, w, c0, c2. repeat split; try assumption; apply Hws.
Qed.

Lemma dct_forward_result_shape_witness :
  exists t, Dct.forward SmallDct.sampler
              [SmallDct.c0; SmallDct.c1; SmallDct.c2] SmallDct.latent = Ok t
            /\ shape t = [2; 2; 2; 8; 8].
Proof.
  destruct (Dct.forward SmallDct.sampler
              [SmallDct.c0; SmallDct.c1; SmallDct.c2] SmallDct.latent)
    as [t | e] eqn:E; [| discriminate E].
  destruct (dct_forward_result_shape (init_locals 2 16 8 8 []) (PInt 2) 16 8 8
              [SmallDct.c0; SmallDct.c1; SmallDct.c2] SmallDct.latent t E)
    as (fs & b & h & w & c0 & c2 & Hfs & _ & _ & C2 & Hc2 & Hs).
  injection Hfs as <-. injection C2 as <-.
  apply shape4_inj in Hc2. destruct Hc2 as (<- & _ & <- & <-).
  exists t. split; [reflexivity | exact Hs].
Defined.

(** X5: the frequency-domain [Sampler.forward] repeats the latent tensor
    as many times as the context batch is large, so it only returns, for
    a non-empty context batch, when the latent tensor holds exactly one
    sample. *)
Theorem dct_latent_holds_one_sample {N : Numerics} (cfg fsv : pyval) (lc cc oc : Z)
    (ics : list Tensor) (latent : Tensor) (t c0 : Tensor)
    (b lb : Z) (rc rl : list Z) :
  Dct.forward (Dct.build cfg fsv lc cc oc) ics latent = Ok t ->
  list_getitem ics 0 = Ok c0 -> shape c0 = b :: rc -> b <> 0 ->
  shape latent = lb :: rl ->
  lb = 1.
Proof.
  intros H C0 Hc0 Hb Hl.
  apply dct_forward_ok_trace in H. destruct H as (tr & H & _).
  destruct (dct_forward_trace_needs _ _ _ _ _ _ _ _ H)
    as (fs & b' & lb' & h & w & c0' & c1 & c2 & _ & _ & C0' & _ & _ & Hws & _).
  apply dct_well_shaped_inv in Hws. destruct Hws as (_ & Hlat & Hmul & _ & Hc0').
  assert (c0' = c0) by congruence. subst c0'.
  rewrite Hc0 in Hc0'. injection Hc0' as -> _.
  rewrite Hl in Hlat. injection Hlat as -> _.
  nia.
Qed.

Lemma dct_latent_holds_one_sample_witness :
  exists lb rl, shape SmallDct.latent = lb :: rl /\ lb = 1.
Proof.
  destruct (Dct.forward SmallDct.sampler
              [SmallDct.c0; SmallDct.c1; SmallDct.c2] SmallDct.latent)
    as [t | e] eqn:E; [| discriminate E].
  exists 1, [16; 2; 2]. split; [reflexivity |].
  apply (dct_latent_holds_one_sample (init_locals 2 16 8 8 []) (PInt 2) 16 8 8
           [SmallDct.c0; SmallDct.c1; SmallDct.c2] SmallDct.latent t SmallDct.c0
           2 1 [2; 8; 8] [16; 2; 2] E); [reflexivity | reflexivity | lia | reflexivity].
Defined.

(** ** The forecast horizon *)



(** ** Construction from a configuration record *)

(** X7: every Sampler that [__init__] constructs, from explicit arguments,
    with further keyword arguments or from a [config] record, is
    constructed again, identically, from the configuration record it
    stores, whatever explicit arguments accompany it.  Both variants. *)
Theorem stored_config_rebuilds_the_sampler (fs lc cc oc : Z) (kwargs : dict) :
  (forall self, Std.init fs lc cc oc kwargs = Ok self ->
     forall fs' lc' cc' oc',
       Std.init fs' lc' cc' oc' [("config", Std.config self)] = Ok self)
  /\ (forall self, Dct.init fs lc cc oc kwargs = Ok self ->
        forall fs' lc' cc' oc',
          Dct.init fs' lc' cc' oc' [("config", Dct.config self)] = Ok self).
Proof.
  split; intros self H fs' lc' cc' oc'.
  - unfold Std.init in H. cbv zeta in H.
    set (sc := dict_get_default kwargs "config" _) in H.
    repeat bind_inv H. injection H as <-.
    cbn [Std.config Std.build]. unfold Std.init.
    change (dict_get_default [("config", sc)] "config"
              (init_locals fs' lc' cc' oc' [("config", sc)])) with sc.
    cbv zeta. rewrite Hstep, Hstep0, Hstep1, Hstep2. cbn [bind].
    rewrite Hstep3, Hstep4, Hstep5. reflexivity.
  - unfold Dct.init in H. cbv zeta in H.
    set (sc := dict_get_default kwargs "config" _) in H.
    repeat bind_inv H. injection H as <-.
    cbn [Dct.config Dct.build]. unfold Dct.init.
    change (dict_get_default [("config", sc)] "config"
              (init_locals fs' lc' cc' oc' [("config", sc)])) with sc.
    cbv zeta. rewrite Hstep, Hstep0, Hstep1, Hstep2. cbn [bind].
    rewrite Hstep3, Hstep4, Hstep5. reflexivity.
Qed.

Lemma stored_config_rebuilds_the_sampler_witness :
  exists self,
    Std.init 2 16 8 8 [("name", PInt 7)] = Ok self
    /\ Std.init 18 768 384 1 [("config", Std.config self)] = Ok self.
Proof.
  destruct (Std.init 2 16 8 8 [("name", PInt 7)]) as [self | e] eqn:E;
    [| discriminate E].
  exists self. split; [reflexivity |].
  exact (proj1 (stored_config_rebuilds_the_sampler 2 16 8 8 [("name", PInt 7)])
           self E 18 768 384 1).
Defined.

(** X8: a [config] keyword takes precedence.  When it is given, the four
    explicit arguments are ignored altogether: the result of [__init__],
    success or error, does not depend on them, and a Sampler so
    constructed stores the given record itself.  Both variants. *)
Theorem config_keyword_overrides_arguments
    (fs lc cc oc fs' lc' cc' oc' : Z) (kwargs : dict) (c : pyval) :
  dict_get kwargs "config" = Some c ->
  Std.init fs lc cc oc kwargs = Std.init fs' lc' cc' oc' kwargs
  /\ (forall self, Std.init fs lc cc oc kwargs = Ok self -> Std.config self = c)
  /\ Dct.init fs lc cc oc kwargs = Dct.init fs' lc' cc' oc' kwargs
  /\ (forall self, Dct.init fs lc cc oc kwargs = Ok self -> Dct.config self = c).
Proof.
  intros Hc.
  assert (Hd : forall d, dict_get_default kwargs "config" d = c)
    by (intros d; unfold dict_get_default; now rewrite Hc).
  repeat split.
  - unfold Std.init. cbv zeta. now rewrite !Hd.
  - intros self H. unfold Std.init in H. cbv zeta in H. rewrite Hd in H.
    repeat bind_inv H. now injection H as <-.
  - unfold Dct.init. cbv zeta. now rewrite !Hd.
  - intros self H. unfold Dct.init in H. cbv zeta in H. rewrite Hd in H.
    repeat bind_inv H. now injection H as <-.
Qed.

Lemma config_keyword_overrides_arguments_witness :
  Std.init 18 768 384 1 [("config", init_locals 2 16 8 8 [])]
  = Ok SmallStd.sampler
  /\ Std.init 18 768 384 1 [("config", init_locals 2 16 8 8 [])]
     = Std.init 5 5 5 5 [("config", init_locals 2 16 8 8 [])].
Proof.
  destruct (config_keyword_overrides_arguments 18 768 384 1 5 5 5 5
              [("config", init_locals 2 16 8 8 [])] (init_locals 2 16 8 8 [])
              eq_refl) as (H & _).
  split; [reflexivity | exact H].
Defined.

(** X9: a [config] record must be complete.  When it lacks one of the
    four names, [__init__] raises the [KeyError] of the first one missing,
    in the order forecast_steps, latent_channels, context_channels,
    output_channels; it never falls back on the explicit arguments or on
    their defaults.  Both variants. *)
Theorem incomplete_config_raises_KeyError
    (fs lc cc oc : Z) (kwargs d : dict) :
  dict_get kwargs "config" = Some (PDict d) ->
  (dict_get d "forecast_steps" = None ->
   Std.init fs lc cc oc kwargs = Raise (KeyError "forecast_steps")
   /\ Dct.init fs lc cc oc kwargs = Raise (KeyError "forecast_steps"))
  /\ (dict_get d "forecast_steps" <> None ->
      dict_get d "latent_channels" = None ->
      Std.init fs lc cc oc kwargs = Raise (KeyError "latent_channels")
      /\ Dct.init fs lc cc oc kwargs = Raise (KeyError "latent_channels"))
  /\ (dict_get d "forecast_steps" <> None ->
      dict_get d "latent_channels" <> None ->
      dict_get d "context_channels" = None ->
      Std.init fs lc cc oc kwargs = Raise (KeyError "context_channels")
      /\ Dct.init fs lc cc oc kwargs = Raise (KeyError "context_channels"))
  /\ (dict_get d "forecast_steps" <> None ->
      dict_get d "latent_channels" <> None ->
      dict_get d "context_channels" <> None ->
      dict_get d "output_channels" = None ->
      Std.init fs lc cc oc kwargs = Raise (KeyError "output_channels")
      /\ Dct.init fs lc cc oc kwargs = Raise (KeyError "output_channels")).
Proof.
  intros Hc.
  assert (Hd : forall x, dict_get_default kwargs "config" x = PDict d)
    by (intros x; unfold dict_get_default; now rewrite Hc).
  unfold Std.init, Dct.init. cbv zeta. rewrite !Hd. unfold subscript.
  repeat split; intros;
    repeat match goal with
      | H : dict_get d ?k = None |- _ => rewrite H
      | H : dict_get d ?k <> None |- _ =>
          destruct (dict_get d k); [clear H | congruence]
      end; reflexivity.
Qed.

Lemma incomplete_config_raises_KeyError_witness :
  Std.init 18 768 384 1 [("config", PDict [("forecast_steps", PInt 4)])]
  = Raise (KeyError "latent_channels")
  /\ Dct.init 18 768 384 1 [("config", PDict [("forecast_steps", PInt 4)])]
     = Raise (KeyError "latent_channels").
Proof.
  destruct (incomplete_config_raises_KeyError 18 768 384 1
              [("config", PDict [("forecast_steps", PInt 4)])]
              [("forecast_steps", PInt 4)] eq_refl) as (_ & H & _).
  apply H; [discriminate | reflexivity].
Defined.

(** ** The latent list of the standard variant *)

(** X10: the standard [Sampler.forward] reads the entries 0 to 3 of a
    latent list and no other: two latent lists that agree on their first
    four entries give the same result, so entries beyond the fourth are
    silently ignored. *)
Theorem std_reads_four_latent_entries {N : Numerics}
    (self : Std.Sampler) (ics ls ls' : list Tensor) :
  firstn 4 ls = firstn 4 ls' ->
  Std.forward self ics (PList ls) = Std.forward self ics (PList ls').
Proof.
  intros H. unfold Std.forward, Std.forward_trace, Std.cat_latent.
  cbn [getitem].
  rewrite (list_getitem_prefix 4 3 ls ls'), (list_getitem_prefix 4 2 ls ls'),
    (list_getitem_prefix 4 1 ls ls'), (list_getitem_prefix 4 0 ls ls')
    by (assumption || lia).
  reflexivity.
Qed.

Lemma std_reads_four_latent_entries_witness :
  Std.forward SmallStd.sampler SmallStd.ics
    (PList [SmallStd.l0; SmallStd.l1; SmallStd.l2; SmallStd.l3; SmallStd.c0])
  = Std.forward SmallStd.sampler SmallStd.ics SmallStd.lcs.
Proof.
  apply (std_reads_four_latent_entries (N := symbolic)). reflexivity.
Defined.

(** ** The Generator wrappers *)

(** X11: the standard [Generator.forward] is the Sampler applied to what
    the two stacks return.  Whenever it returns, both stacks returned,
    and the forecast has shape
    (b, forecast_steps, output_channels, 32 h, 32 w) for the shape
    (b, context_channels, h, w) of the fourth tensor that the context
    stack returned. *)
Theorem std_generator_result_shape {N : Numerics}
    (g : StdGenerator.Generator) (cfg fsv : pyval) (lc cc oc : Z)
    (x_input x_last t : Tensor) :
  StdGenerator.sampler g = Std.build cfg fsv lc cc oc ->
  StdGenerator.forward g x_input x_last = Ok t ->
  exists ics_states lcs_states fs b h w c3,
    StdGenerator.ics g x_input = Ok ics_states
    /\ StdGenerator.lcs g x_last = Ok lcs_states
    /\ Std.forward (StdGenerator.sampler g) ics_states lcs_states = Ok t
    /\ fsv = PInt fs
    /\ list_getitem ics_states 3 = Ok c3 /\ shape c3 = [b; cc; h; w]
    /\ shape t = [b; fs; oc; 32 * h; 32 * w].
Proof.
  intros Hs H. unfold StdGenerator.forward in H.
  repeat bind_inv H. injection H as <-.
  pose proof Hstep1 as Hf. rewrite Hs in Hf.
  apply std_forward_ok_trace in Hf. destruct Hf as (tr & Htr & <-).
  destruct (std_forward_trace_needs _ _ _ _ _ _ _ _ Htr)
    as (fs & b & h & w & c0 & c1 & c2 & c3 & l0 & l1 & l2 & l3
        & Hfs & _ & _ & _ & _ & C3 & _ & _ & _ & _ & Hws & Hsh).
  apply std_well_shaped_inv in Hws.
  exists a, a0, fs, b, h, w, c3. repeat split; try assumption. apply Hws.
Qed.

Lemma std_generator_result_shape_witness :
  exists t, StdGenerator.forward SmallStdGenerator.generator
              SmallStdGenerator.x_input SmallStdGenerator.x_last = Ok t
            /\ shape t = [1; 2; 8; 32; 32].
Proof.
  destruct (StdGenerator.forward SmallStdGenerator.generator
              SmallStdGenerator.x_input SmallStdGenerator.x_last)
    as [t | e] eqn:E; [| discriminate E].
  destruct (std_generator_result_shape SmallStdGenerator.generator
              (init_locals 2 16 8 8 []) (PInt 2) 16 8 8
              SmallStdGenerator.x_input SmallStdGenerator.x_last t eq_refl E)
    as (i & l & fs & b & h & w & c3 & Hi & _ & _ & Hfs & C3 & Hc3 & Hs).
  injection Hfs as <-. injection Hi as <-. injection C3 as <-.
  apply shape4_inj in Hc3. destruct Hc3 as (<- & _ & <- & <-).
  exists t. split; [reflexivity | exact Hs].
Defined.

Section DctGeneratorShape.
Context {N : Numerics} {V : ViewNumerics N}.

Lemma unpack5_inv (x : Tensor) (b t c h w : Z) :
  unpack5 x = Ok (b, t, c, h, w) -> shape x = [b; t; c; h; w].
Proof.
  unfold unpack5. intros H.
  destruct (shape x) as [| ? [| ? [| ? [| ? [| ? [| ? ?]]]]]]; try discriminate H.
  now injection H as -> -> -> -> ->.
Qed.

Lemma torch_reshape_inv (x y : Tensor) (s : list Z) :
  torch_reshape x s = Ok y -> shape y = s /\ numel (shape x) = numel s.
Proof.
  unfold torch_reshape. intros H.
  destruct (numel (shape x) =? numel s) eqn:E; [| discriminate H].
  injection H as <-. split; [reflexivity | now apply Z.eqb_eq].
Qed.

(** X12: whenever the frequency-domain [Generator.forward] returns, its
    input had exactly five axes and its result has exactly five: the
    batch size [b] of the first tensor that the conditioning stack
    returned, [forecast_steps] frames, a singleton channel axis at
    position 2, and the sizes of axes 1 and 2 of what the inverse
    transform returned for the [b * forecast_steps] frames of the
    Sampler, which have [output_channels // 4] channels. *)
Theorem dct_generator_result_shape
    (g : DctGenerator.Generator) (cfg fsv : pyval) (lc cc oc : Z)
    (x out : Tensor) :
  DctGenerator.sampler g = Dct.build cfg fsv lc cc oc ->
  DctGenerator.forward g x = Ok out ->
  exists fs b h w z y H W,
    length (shape x) = 5%nat
    /\ fsv = PInt fs /\ 0 < fs
    /\ (exists x' states c0 rc,
          DctGenerator.conditioning_stack g x' = Ok states
          /\ list_getitem states 0 = Ok c0 /\ shape c0 = b :: rc)
    /\ shape z = [b * fs; oc / 4; h; w]
    /\ DctGenerator.conv_idct g z = Ok y
    /\ shape_at y 1 = Ok H /\ shape_at y 2 = Ok W
    /\ numel (shape y) = numel [b; fs; H; W]
    /\ shape out = [b; fs; 1; H; W].
Proof.
  intros Hs H. unfold DctGenerator.forward in H.
  bind_inv H. destruct a as [[[[b0 t0] c0] h0] w0].
  apply unpack5_inv in Hstep.
  do 9 bind_inv H.
  rewrite Hs in Hstep8. apply dct_forward_ok_trace in Hstep8.
  destruct Hstep8 as (tr & Htr & <-).
  destruct (dct_forward_trace_needs _ _ _ _ _ _ _ _ Htr)
    as (fs & b & lb & h & w & s0 & s1 & s2 & Hfs & Hpos & S0 & _ & _ & Hws & Hsh).
  apply dct_well_shaped_inv in Hws. destruct Hws as (_ & _ & _ & _ & Hs0).
  bind_inv H. destruct a7 as [[[[b1 t1] c1] h1] w1].
  apply unpack5_inv in Hstep8. rewrite Hsh in Hstep8.
  injection Hstep8 as <- <- <- <- <-.
  repeat bind_inv H. injection H as <-.
  apply torch_reshape_inv in Hstep8. destruct Hstep8 as [Hz _].
  apply torch_reshape_inv in Hstep12. destruct Hstep12 as [Ha10 Hnum].
  unfold unsqueeze2 in Hstep13. rewrite Ha10 in Hstep13. injection Hstep13 as <-.
  exists fs, b, (4 * h), (4 * w), a7, a8, a9, a10.
  repeat split; try assumption.
  - now rewrite Hstep.
  - exists a4, a5, s0, [cc / 4; 4 * h; 4 * w]. repeat split; assumption.
Qed.

End DctGeneratorShape.

Lemma dct_generator_result_shape_witness :
  exists out, DctGenerator.forward (V := symbolic_views) SmallDctGenerator.generator
                SmallDctGenerator.frames = Ok out
              /\ shape out = [2; 2; 1; 16; 16].
Proof.
  destruct (DctGenerator.forward (V := symbolic_views) SmallDctGenerator.generator
              SmallDctGenerator.frames) as [out | e] eqn:E; [| discriminate E].
  destruct (dct_generator_result_shape (V := symbolic_views)
              SmallDctGenerator.generator
              (init_locals 2 16 8 8 []) (PInt 2) 16 8 8
              SmallDctGenerator.frames out eq_refl E)
    as (fs & b & h & w & z & y & H & W & _ & _ & _ & _ & _ & _ & _ & _ & _ & Hs).
  exists out. split; [reflexivity |].
  vm_compute in E. injection E as <-. reflexivity.
Defined.
